(** * Per-game settings of the R4 theme (romsel_r4theme/arm9/source/perGameSettings.cpp)

    A shallow embedding of the per-title settings store and of the
    cursor-driven editor loop, followed by the properties of the design
    document that concern them. *)

From Stdlib Require Import ZArith Bool List Lia Ascii String.
From stdpp Require Import base option gmap strings list.
Import ListNotations.

Local Open Scope string_scope.
Local Open Scope Z_scope.

(** ** Machine integers *)

(** [int] is a signed 32-bit integer on the ARM9; [x++] and [x--] are
    modelled with two's-complement wrap-around. *)
Definition sint32 (z : Z) : Z := (z + 2 ^ 31) mod 2 ^ 32 - 2 ^ 31.
Definition int_incr (x : Z) : Z := sint32 (x + 1).
Definition int_decr (x : Z) : Z := sint32 (x - 1).

(** Conversions between [bool] and [int] as C++ performs them. *)
Definition bool_of_int (v : Z) : bool := negb (v =? 0).
Definition int_of_bool (b : bool) : Z := if b then 1 else 0.

(** ** Key masks of libnds ([pressed & KEY_x]) *)

Definition KEY_A : Z := 1.
Definition KEY_B : Z := 2.
Definition KEY_UP : Z := 64.
Definition KEY_DOWN : Z := 128.

Definition held (pressed key : Z) : bool := negb (Z.land pressed key =? 0).

(** ** The ini file store *)

Module Ini.

(** Modelled from the spec: the class [CIniFile] of inifile.h is not part
    of the sources at hand.  Following sections 4.1, 6 and 7 of the design
    document, a settings file is a finite map from (section, key) to a
    signed integer; a file that is missing, unreadable or malformed opens
    as the empty map; [GetInt] answers the supplied default for an absent
    key; [SetInt] stores a value in the opened object; [SaveIniFile]
    writes the whole object back under the given path. *)
Record CIniFile : Type := mkIni {
  entries : gmap (string * string) Z;
  (* bookkeeping for the proofs: the keys handed to SetInt since the
     object was opened, oldest first *)
  sets : list (string * string)
}.

(** The storage devices: path to file contents, and a journal of the
    [SaveIniFile] calls made so far (path and keys set before the call). *)
Record Storage : Type := mkStorage {
  files : gmap string (gmap (string * string) Z);
  journal : list (string * list (string * string))
}.

Definition open (st : Storage) (path : string) : CIniFile :=
  {| entries := default ∅ (files st !! path); sets := [] |}.

Definition GetInt (f : CIniFile) (section key : string) (dflt : Z) : Z :=
  default dflt (entries f !! (section, key)).

Definition SetInt (f : CIniFile) (section key : string) (v : Z) : CIniFile :=
  {| entries := <[(section, key) := v]> (entries f);
     sets := sets f ++ [(section, key)] |}.

Definition SaveIniFile (f : CIniFile) (path : string) (st : Storage) : Storage :=
  {| files := <[path := entries f]> (files st);
     journal := journal st ++ [(path, sets f)] |}.

(** What a later reader finds under [path] for a key. *)
Definition stored (st : Storage) (path section key : string) : option Z :=
  files st !! path ≫= (λ m, m !! (section, key)).

End Ini.

(** ** Context supplied by the rest of the menu *)

(** The globals and hardware probes the file only reads: [isHomebrew]
    (ndsheaderbanner.h, values 0, 1, 2), [isDSiWare], [useBootstrap],
    [secondaryDevice] (flashcard.h), the register [REG_SCFG_EXT] (u32) and
    libnds' [isDSiMode()]. *)
Record Context : Type := mkContext {
  isHomebrew : Z;
  isDSiWare : bool;
  useBootstrap : bool;
  secondaryDevice : bool;
  REG_SCFG_EXT : Z;
  isDSiMode : bool
}.

(** ** Globals written by the file *)

Record Globals : Type := mkGlobals {
  perGameSettingsChanged : bool;
  perGameSettings_cursorPosition : Z;
  perGameSettings_directBoot : bool;
  perGameSettings_dsiMode : Z;
  perGameSettings_language : Z;
  perGameSettings_boostCpu : Z;
  perGameSettings_boostVram : Z;
  perGameSettings_bootstrapFile : Z;
  storage : Ini.Storage
}.

(** The initial values of the globals (lines 67-75). *)
Definition initialGlobals (st : Ini.Storage) : Globals :=
  {| perGameSettingsChanged := false;
     perGameSettings_cursorPosition := 0;
     perGameSettings_directBoot := false;
     perGameSettings_dsiMode := -1;
     perGameSettings_language := -2;
     perGameSettings_boostCpu := -1;
     perGameSettings_boostVram := -1;
     perGameSettings_bootstrapFile := -1;
     storage := st |}.

(** ** Load and save (lines 94-141) *)

(** The text of [s] before the first [stop], all of it when there is none. *)
Fixpoint before (stop : ascii) (s : string) : string :=
  match s with
  | EmptyString => ""
  | String ch rest => if Ascii.eqb ch stop then "" else String ch (before stop rest)
  end.

(** [filename.c_str()] as [%s] prints it: the characters up to the first
    NUL. *)
Definition c_str (s : string) : string := before "000"%char s.

(** [snprintf(pergamefilepath, sizeof(pergamefilepath), ...)] with a buffer
    of 256 bytes: at most 255 characters are kept. *)
Definition pergamefilepath (c : Context) (filename : string) : string :=
  String.substring 0 255
    ((if secondaryDevice c then "fat:" else "sd:")
       +:+ "/_nds/TWiLightMenu/gamesettings/" +:+ c_str filename +:+ ".ini").

Definition GAMESETTINGS : string := "GAMESETTINGS".

Definition loadPerGameSettings (c : Context) (filename : string) (g : Globals) : Globals :=
  let pergameini := Ini.open (storage g) (pergamefilepath c filename) in
  {| perGameSettingsChanged := perGameSettingsChanged g;
     perGameSettings_cursorPosition := perGameSettings_cursorPosition g;
     perGameSettings_directBoot :=
       bool_of_int (Ini.GetInt pergameini GAMESETTINGS "DIRECT_BOOT"
                      (int_of_bool (secondaryDevice c)));
     perGameSettings_dsiMode := Ini.GetInt pergameini GAMESETTINGS "DSI_MODE" (-1);
     perGameSettings_language := Ini.GetInt pergameini GAMESETTINGS "LANGUAGE" (-2);
     perGameSettings_boostCpu := Ini.GetInt pergameini GAMESETTINGS "BOOST_CPU" (-1);
     perGameSettings_boostVram := Ini.GetInt pergameini GAMESETTINGS "BOOST_VRAM" (-1);
     perGameSettings_bootstrapFile :=
       Ini.GetInt pergameini GAMESETTINGS "BOOTSTRAP_FILE" (-1);
     storage := storage g |}.

(** The three settings both branches of [savePerGameSettings] write under
    [isDSiMode()] (lines 111-113 and 118-120). *)
Definition setDsiKeys (g : Globals) (pergameini : Ini.CIniFile) : Ini.CIniFile :=
  let pergameini := Ini.SetInt pergameini GAMESETTINGS "DSI_MODE" (perGameSettings_dsiMode g) in
  let pergameini := Ini.SetInt pergameini GAMESETTINGS "BOOST_CPU" (perGameSettings_boostCpu g) in
  Ini.SetInt pergameini GAMESETTINGS "BOOST_VRAM" (perGameSettings_boostVram g).

(** The object as it stands when [SaveIniFile] is reached. *)
Definition filledIni (c : Context) (g : Globals) (pergameini : Ini.CIniFile) : Ini.CIniFile :=
  if isHomebrew c =? 1 then
    let pergameini :=
      Ini.SetInt pergameini GAMESETTINGS "DIRECT_BOOT"
        (int_of_bool (perGameSettings_directBoot g)) in
    if isDSiMode c then setDsiKeys g pergameini else pergameini
  else if isDSiMode c then
    let pergameini :=
      if negb (secondaryDevice c)
      then Ini.SetInt pergameini GAMESETTINGS "LANGUAGE" (perGameSettings_language g)
      else pergameini in
    let pergameini := if isDSiMode c then setDsiKeys g pergameini else pergameini in
    if negb (secondaryDevice c)
    then Ini.SetInt pergameini GAMESETTINGS "BOOTSTRAP_FILE" (perGameSettings_bootstrapFile g)
    else pergameini
  else pergameini.

Definition withStorage (g : Globals) (st : Ini.Storage) : Globals :=
  {| perGameSettingsChanged := perGameSettingsChanged g;
     perGameSettings_cursorPosition := perGameSettings_cursorPosition g;
     perGameSettings_directBoot := perGameSettings_directBoot g;
     perGameSettings_dsiMode := perGameSettings_dsiMode g;
     perGameSettings_language := perGameSettings_language g;
     perGameSettings_boostCpu := perGameSettings_boostCpu g;
     perGameSettings_boostVram := perGameSettings_boostVram g;
     perGameSettings_bootstrapFile := perGameSettings_bootstrapFile g;
     storage := st |}.

Definition savePerGameSettings (c : Context) (filename : string) (g : Globals) : Globals :=
  let path := pergamefilepath c filename in
  let pergameini := filledIni c g (Ini.open (storage g) path) in
  withStorage g (Ini.SaveIniFile pergameini path (storage g)).

Definition checkIfShowAPMsg (c : Context) (filename : string) (st : Ini.Storage) : bool :=
  let pergameini := Ini.open st (pergamefilepath c filename) in
  if Ini.GetInt pergameini GAMESETTINGS "NO_SHOW_AP_MSG" 0 =? 0 then true else false.

Definition dontShowAPMsgAgain (c : Context) (filename : string) (st : Ini.Storage) : Ini.Storage :=
  let path := pergamefilepath c filename in
  let pergameini := Ini.open st path in
  let pergameini := Ini.SetInt pergameini GAMESETTINGS "NO_SHOW_AP_MSG" 1 in
  Ini.SaveIniFile pergameini path st.

(** The keys the last [SaveIniFile] call was preceded by. *)
Definition lastSavedKeys (st : Ini.Storage) : option (list (string * string)) :=
  snd <$> last (Ini.journal st).

(** ** The editor loop (lines 143-526) *)

(** Field updates on the globals. *)
Definition setChanged (b : bool) (g : Globals) : Globals :=
  mkGlobals b (perGameSettings_cursorPosition g) (perGameSettings_directBoot g)
    (perGameSettings_dsiMode g) (perGameSettings_language g) (perGameSettings_boostCpu g)
    (perGameSettings_boostVram g) (perGameSettings_bootstrapFile g) (storage g).
Definition setCursor (p : Z) (g : Globals) : Globals :=
  mkGlobals (perGameSettingsChanged g) p (perGameSettings_directBoot g)
    (perGameSettings_dsiMode g) (perGameSettings_language g) (perGameSettings_boostCpu g)
    (perGameSettings_boostVram g) (perGameSettings_bootstrapFile g) (storage g).
Definition setDirectBoot (b : bool) (g : Globals) : Globals :=
  mkGlobals (perGameSettingsChanged g) (perGameSettings_cursorPosition g) b
    (perGameSettings_dsiMode g) (perGameSettings_language g) (perGameSettings_boostCpu g)
    (perGameSettings_boostVram g) (perGameSettings_bootstrapFile g) (storage g).
Definition setDsiMode (v : Z) (g : Globals) : Globals :=
  mkGlobals (perGameSettingsChanged g) (perGameSettings_cursorPosition g)
    (perGameSettings_directBoot g) v (perGameSettings_language g) (perGameSettings_boostCpu g)
    (perGameSettings_boostVram g) (perGameSettings_bootstrapFile g) (storage g).
Definition setLanguage (v : Z) (g : Globals) : Globals :=
  mkGlobals (perGameSettingsChanged g) (perGameSettings_cursorPosition g)
    (perGameSettings_directBoot g) (perGameSettings_dsiMode g) v (perGameSettings_boostCpu g)
    (perGameSettings_boostVram g) (perGameSettings_bootstrapFile g) (storage g).
Definition setBoostCpu (v : Z) (g : Globals) : Globals :=
  mkGlobals (perGameSettingsChanged g) (perGameSettings_cursorPosition g)
    (perGameSettings_directBoot g) (perGameSettings_dsiMode g) (perGameSettings_language g) v
    (perGameSettings_boostVram g) (perGameSettings_bootstrapFile g) (storage g).
Definition setBoostVram (v : Z) (g : Globals) : Globals :=
  mkGlobals (perGameSettingsChanged g) (perGameSettings_cursorPosition g)
    (perGameSettings_directBoot g) (perGameSettings_dsiMode g) (perGameSettings_language g)
    (perGameSettings_boostCpu g) v (perGameSettings_bootstrapFile g) (storage g).
Definition setBootstrapFile (v : Z) (g : Globals) : Globals :=
  mkGlobals (perGameSettingsChanged g) (perGameSettings_cursorPosition g)
    (perGameSettings_directBoot g) (perGameSettings_dsiMode g) (perGameSettings_language g)
    (perGameSettings_boostCpu g) (perGameSettings_boostVram g) v (storage g).

(** [filename.substr(filename.find_last_of(".") + 1)]: the text after the
    last dot, the whole name when there is none ([npos + 1] is 0). *)
Fixpoint afterLastDot (s : string) : option string :=
  match s with
  | EmptyString => None
  | String ch rest =>
      match afterLastDot rest with
      | Some t => Some t
      | None => if Ascii.eqb ch "."%char then Some rest else None
      end
  end.

Definition extension (filename : string) : string :=
  default filename (afterLastDot filename).

Definition isLauncharg (filename : string) : bool :=
  String.eqb (extension filename) "launcharg" || String.eqb (extension filename) "LAUNCHARG".

(** The three arms of the [if] chains at lines 251/309/314 and 392/454/458. *)
Inductive Arm : Type := HomebrewArm | InfoArm | RetailArm.

Definition armOf (c : Context) (filename : string) : Arm :=
  if isHomebrew c =? 1 then HomebrewArm
  else if isLauncharg filename || isDSiWare c || (isHomebrew c =? 2)
          || (negb (useBootstrap c) && (REG_SCFG_EXT c =? 0))
  then InfoArm
  else RetailArm.

(** Cursor keys; lines 393-415 and 459-481 are the same text. *)
Definition cursorUp (c : Context) (p : Z) : Z :=
  if useBootstrap c then
    let p := int_decr p in
    let p := if p <? 0 then 4 else p in
    let p := if negb (isDSiMode c) && negb (REG_SCFG_EXT c =? 0) && (p =? 1) then 0 else p in
    if negb (isDSiMode c) && (REG_SCFG_EXT c =? 0) && (p =? 3) then 0 else p
  else
    let p := int_decr p in
    if p <? 2 then 3 else p.

Definition cursorDown (c : Context) (p : Z) : Z :=
  if useBootstrap c then
    let p := int_incr p in
    let p := if p >? 4 then 0 else p in
    let p := if negb (isDSiMode c) && negb (REG_SCFG_EXT c =? 0) && (p =? 1) then 2 else p in
    if negb (isDSiMode c) && (REG_SCFG_EXT c =? 0) && (p =? 1) then 4 else p
  else
    let p := int_incr p in
    if p >? 3 then 2 else p.

Definition moveCursor (c : Context) (pressed : Z) (g : Globals) : Globals :=
  let g := if held pressed KEY_UP
           then setCursor (cursorUp c (perGameSettings_cursorPosition g)) g else g in
  if held pressed KEY_DOWN
  then setCursor (cursorDown c (perGameSettings_cursorPosition g)) g else g.

(** [x++; if (x > hi) x = lo;] *)
Definition cycle (lo hi x : Z) : Z :=
  let x := int_incr x in if x >? hi then lo else x.

(** KEY_A for a homebrew title (lines 417-445). *)
Definition homebrewActivate (g : Globals) : Globals :=
  let p := perGameSettings_cursorPosition g in
  let g :=
    if p =? 1 then setDsiMode (cycle (-1) 2 (perGameSettings_dsiMode g)) g
    else if p =? 2 then
      if perGameSettings_dsiMode g =? 0
      then setBoostCpu (cycle (-1) 1 (perGameSettings_boostCpu g)) g else g
    else if p =? 3 then
      if perGameSettings_dsiMode g =? 0
      then setBoostVram (cycle (-1) 1 (perGameSettings_boostVram g)) g else g
    else if p =? 4 then setBootstrapFile (cycle (-1) 1 (perGameSettings_bootstrapFile g)) g
    else setDirectBoot (negb (perGameSettings_directBoot g)) g in
  setChanged (negb (perGameSettingsChanged g)) g.

(** KEY_A for the other editable titles (lines 483-512). *)
Definition retailActivate (g : Globals) : Globals :=
  let p := perGameSettings_cursorPosition g in
  let g :=
    if p =? 1 then setDsiMode (cycle (-1) 2 (perGameSettings_dsiMode g)) g
    else if p =? 2 then
      if perGameSettings_dsiMode g <? 1
      then setBoostCpu (cycle (-1) 1 (perGameSettings_boostCpu g)) g else g
    else if p =? 3 then
      if perGameSettings_dsiMode g <? 1
      then setBoostVram (cycle (-1) 1 (perGameSettings_boostVram g)) g else g
    else if p =? 4 then setBootstrapFile (cycle (-1) 1 (perGameSettings_bootstrapFile g)) g
    else setLanguage (cycle (-2) 5 (perGameSettings_language g)) g in
  setChanged true g.

(** KEY_B in both editable arms (lines 447-453 and 514-520), once the key
    is known to be held: the globals the loop is left with. *)
Definition exitEditor (c : Context) (filename : string) (g : Globals) : Globals :=
  if perGameSettingsChanged g
  then setChanged false (savePerGameSettings c filename g)
  else g.

(** One turn of [while (1)]: either the loop goes on or it is left. *)
Inductive Outcome : Type :=
| Continue (g : Globals)
| Break (g : Globals).

Definition globalsOf (o : Outcome) : Globals :=
  match o with Continue g | Break g => g end.

Definition isBreak (o : Outcome) : bool :=
  match o with Break _ => true | Continue _ => false end.

(** [pressed] is the non-zero mask the inner [do ... while (!pressed)]
    delivers. *)
Definition iteration (c : Context) (filename : string) (pressed : Z) (g : Globals) : Outcome :=
  match armOf c filename with
  | HomebrewArm =>
      let g := moveCursor c pressed g in
      let g := if held pressed KEY_A then homebrewActivate g else g in
      if held pressed KEY_B then Break (exitEditor c filename g) else Continue g
  | InfoArm =>
      if held pressed KEY_A || held pressed KEY_B then Break g else Continue g
  | RetailArm =>
      let g := moveCursor c pressed g in
      let g := if held pressed KEY_A then retailActivate g else g in
      if held pressed KEY_B then Break (exitEditor c filename g) else Continue g
  end.

(** The loop over the masks that arrive, until it is left or the masks
    run out. *)
Fixpoint loop (c : Context) (filename : string) (keys : list Z) (g : Globals) : Outcome :=
  match keys with
  | [] => Continue g
  | pressed :: keys' =>
      match iteration c filename pressed g with
      | Break g' => Break g'
      | Continue g' => loop c filename keys' g'
      end
  end.

(** Lines 148-149: the cursor is reset and the settings are loaded. *)
Definition openEditor (c : Context) (filename : string) (g : Globals) : Globals :=
  loadPerGameSettings c filename (setCursor 0 g).

Definition perGameSettings (c : Context) (filename : string) (keys : list Z) (g : Globals)
  : Outcome :=
  loop c filename keys (openEditor c filename g).

(** ** What the loop draws (lines 251-385) *)

(** Whether the setting of row [r] (drawn at y = 112 + 8 r, the cursor at
    y = 112 + 8 * cursorPosition) is printed. *)
Definition rowDrawn (c : Context) (filename : string) (r : Z) : bool :=
  match armOf c filename with
  | HomebrewArm =>
      if r =? 0 then true
      else if r =? 1 then isDSiMode c
      else if (r =? 2) || (r =? 3) then negb (REG_SCFG_EXT c =? 0)
      else if r =? 4 then negb (REG_SCFG_EXT c =? 0) && useBootstrap c
      else false
  | InfoArm => false
  | RetailArm =>
      if r =? 0 then useBootstrap c
      else if r =? 1 then isDSiMode c
      else if (r =? 2) || (r =? 3) then negb (REG_SCFG_EXT c =? 0)
      else if r =? 4 then useBootstrap c
      else false
  end.

Definition visibleRows (c : Context) (filename : string) : list Z :=
  List.filter (rowDrawn c filename) [0; 1; 2; 3; 4].

(** The text printed for "ARM9 CPU Speed:" and "VRAM boost:" in the two
    editable arms (lines 273-294 and 351-372). *)
Definition cpuSpeedText (c : Context) (g : Globals) : string :=
  if (perGameSettings_dsiMode g >? 0) && isDSiMode c then "133mhz (TWL)"
  else if perGameSettings_boostCpu g =? -1 then "Default"
  else if perGameSettings_boostCpu g =? 1 then "133mhz (TWL)"
  else "67mhz (NTR)".

Definition vramBoostText (c : Context) (g : Globals) : string :=
  if (perGameSettings_dsiMode g >? 0) && isDSiMode c then "On"
  else if perGameSettings_boostVram g =? -1 then "Default"
  else if perGameSettings_boostVram g =? 1 then "On"
  else "Off".

(** ** Worked contexts and the statements under test *)

(** Contexts and stores used in the worked examples. *)
Definition noFiles : Ini.Storage := Ini.mkStorage ∅ [].

Definition dsiSdContext (homebrew : Z) : Context :=
  {| isHomebrew := homebrew; isDSiWare := false; useBootstrap := true;
     secondaryDevice := false; REG_SCFG_EXT := 2147483648; isDSiMode := true |}.

(** A console whose SCFG register is readable although the menu does not run
    in DSi mode, the case lines 397 and 403 provide for. *)
Definition scfgOnlyContext (homebrew : Z) (bootstrap : bool) : Context :=
  {| isHomebrew := homebrew; isDSiWare := false; useBootstrap := bootstrap;
     secondaryDevice := true; REG_SCFG_EXT := 2147483648; isDSiMode := false |}.

Definition flashcardDsiContext : Context :=
  {| isHomebrew := 0; isDSiWare := false; useBootstrap := true;
     secondaryDevice := true; REG_SCFG_EXT := 2147483648; isDSiMode := true |}.

(** Globals left behind by an earlier title. *)
Definition staleGlobals : Globals :=
  {| perGameSettingsChanged := false;
     perGameSettings_cursorPosition := 3;
     perGameSettings_directBoot := false;
     perGameSettings_dsiMode := 2;
     perGameSettings_language := 4;
     perGameSettings_boostCpu := 1;
     perGameSettings_boostVram := 0;
     perGameSettings_bootstrapFile := 1;
     storage := noFiles |}.

(** Keys of the one section the file uses. *)
Definition K (key : string) : string * string := (GAMESETTINGS, key).

(** The claim of C3 as it is worded, with "capability register present"
    read as [REG_SCFG_EXT != 0]. *)
Definition homebrewSaveOnScfg_as_stated : Prop :=
  forall (c : Context) (filename : string) (g : Globals),
    isHomebrew c = 1 -> REG_SCFG_EXT c <> 0 ->
    lastSavedKeys (storage (savePerGameSettings c filename g))
    = Some [K "DIRECT_BOOT"; K "DSI_MODE"; K "BOOST_CPU"; K "BOOST_VRAM"].

(** The claim of C6 as it is worded, the "visible fields" being the rows the
    loop draws: in every editing session the cursor starts at 0, always
    stands on a drawn row, and wraps between the first and the last one. *)
Definition cursorOnVisibleField_as_stated : Prop :=
  forall (c : Context) (filename : string) (keys : list Z) (g : Globals),
    armOf c filename <> InfoArm ->
    let g0 := openEditor c filename g in
    perGameSettings_cursorPosition g0 = 0
    /\ In (perGameSettings_cursorPosition (globalsOf (loop c filename keys g0)))
          (visibleRows c filename)
    /\ (forall lo hi,
           head (visibleRows c filename) = Some lo ->
           last (visibleRows c filename) = Some hi ->
           cursorDown c hi = lo /\ cursorUp c lo = hi).

(** The contexts in which the arrow keys and the drawing agree on the
    rows: bootstrap helper in use, and either SCFG readable, or no DSi
    mode on a title of the non-homebrew editable arm. *)
Definition rowsAgree (c : Context) (filename : string) : bool :=
  useBootstrap c
  && (negb (REG_SCFG_EXT c =? 0)
      || (negb (isDSiMode c)
          && match armOf c filename with RetailArm => true | _ => false end)).

(** ** The file shown in the header (lines 151-234) *)

(** The separators of [strtok]: ["\n\r\t "]. *)
Definition seps : list ascii := ["010"; "013"; "009"; " "]%char.

Definition isSep (ch : ascii) : bool := existsb (Ascii.eqb ch) seps.

(** [fgets(str, size, argfile)]: at most [size - 1] characters, ending
    after a newline; [room] is [size - 1].  The line read and what is left
    of the file. *)
Fixpoint fgets (room : nat) (content : string) : string * string :=
  match room, content with
  | O, _ => ("", content)
  | _, EmptyString => ("", "")
  | S room', String ch rest =>
      if Ascii.eqb ch "010"%char then (String ch "", rest)
      else let (line, left) := fgets room' rest in (String ch line, left)
  end.

(** The buffer as the C string functions see it (up to the first NUL), cut
    at the first '#' (lines 166-167). *)
Definition stripComment (str : string) : string :=
  before "#"%char (before "000"%char str).

(** The [strtok] loop of lines 170-175: the maximal runs of characters that
    are not separators, [cur] being the run in progress. *)
Fixpoint strtokFrom (cur : string) (s : string) : list string :=
  match s with
  | EmptyString => if String.eqb cur "" then [] else [cur]
  | String ch rest =>
      if isSep ch
      then (if String.eqb cur "" then strtokFrom "" rest else cur :: strtokFrom "" rest)
      else strtokFrom (cur +:+ String ch "") rest
  end.

Definition tokensOfLine (str : string) : list string :=
  strtokFrom "" (stripComment str).

(** The [while (fgets(...))] loop of lines 164-176; [fuel] bounds the number
    of lines read, and the length of the content is enough when [room] is
    not 0. *)
Fixpoint readArgs (fuel room : nat) (content : string) : list string :=
  match fuel with
  | O => []
  | S fuel' =>
      match content with
      | EmptyString => []
      | _ => let (str, left) := fgets room content in
             (tokensOfLine str ++ readArgs fuel' room left)%list
      end
  end.

(** [argarray] for a file with the given content, [PATH_MAX] being the size
    of the line buffer. *)
Definition argarray (PATH_MAX : nat) (content : string) : list string :=
  readArgs (String.length content) (PATH_MAX - 1) content.

(** [argarray.at(0)] (line 178): [None] stands for the [std::out_of_range]
    the call throws on an empty vector. *)
Definition firstArg (PATH_MAX : nat) (content : string) : option string :=
  head (argarray PATH_MAX content).

(** [%x] of an unsigned value: lower-case hexadecimal without padding. *)
Definition hexDigit (d : Z) : ascii :=
  nth (Z.to_nat d)
      ["0"; "1"; "2"; "3"; "4"; "5"; "6"; "7"; "8"; "9"; "a"; "b"; "c"; "d"; "e"; "f"]%char
      "0"%char.

Fixpoint hexDigits (fuel : nat) (n : Z) (acc : string) : string :=
  match fuel with
  | O => acc
  | S fuel' =>
      let acc' := String (hexDigit (n mod 16)) acc in
      if n / 16 =? 0 then acc' else hexDigits fuel' (n / 16) acc'
  end.

Definition printf_x (n : Z) : string := hexDigits 8 n "".

(** Lines 187-191: the candidate [appPath] for a version, in a buffer of
    256 bytes. *)
Definition appPathOf (dir : string) (appVer : Z) : string :=
  String.substring 0 255
    (if appVer >? 15
     then dir +:+ "/content/000000" +:+ printf_x appVer +:+ ".app"
     else dir +:+ "/content/0000000" +:+ printf_x appVer +:+ ".app").

(** The loop of lines 185-201 over [u8 appVer]: [appVer++] wraps from 255 to
    0; the test [appVer <= 0xFF] holds of every u8 and is left out, so only
    the [break] leaves the loop.  [None]: the loop is still running when
    [fuel] turns are over. *)
Fixpoint appSearch (access : string -> bool) (dir : string) (fuel : nat) (appVer : Z)
  : option string :=
  match fuel with
  | O => None
  | S fuel' =>
      let appPath := appPathOf dir appVer in
      if access appPath then Some appPath
      else appSearch access dir fuel' ((appVer + 1) mod 256)
  end.

(** Lines 222-234. *)
Definition sdkNumberText (SDKVersion : Z) : string :=
  if (SDKVersion >? 0x1000000) && (SDKVersion <? 0x2000000) then "SDK ver: 1"
  else if (SDKVersion >? 0x2000000) && (SDKVersion <? 0x3000000) then "SDK ver: 2"
  else if (SDKVersion >? 0x3000000) && (SDKVersion <? 0x4000000) then "SDK ver: 3"
  else if (SDKVersion >? 0x4000000) && (SDKVersion <? 0x5000000) then "SDK ver: 4"
  else if (SDKVersion >? 0x5000000) && (SDKVersion <? 0x6000000) then "SDK ver: 5 (TWLSDK)"
  else "SDK ver: ?".

(** The fixed part of [pergamefilepath]. *)
Definition pathPrefix (c : Context) : string :=
  (if secondaryDevice c then "fat:" else "sd:") +:+ "/_nds/TWiLightMenu/gamesettings/".

(** The keys of the settings proper. *)
Definition settingKeys : list string :=
  ["DIRECT_BOOT"; "DSI_MODE"; "LANGUAGE"; "BOOST_CPU"; "BOOST_VRAM"; "BOOTSTRAP_FILE"].

(** What may follow a word in the argument file: nothing, a separator, a
    comment or a NUL. *)
Definition wordEnds (rest : string) : Prop :=
  match rest with
  | EmptyString => True
  | String ch _ => isSep ch = true \/ ch = "#"%char \/ ch = "000"%char
  end.

(** ** Ranges of the settings *)

Definition inDomain (g : Globals) : Prop :=
  -1 <= perGameSettings_dsiMode g <= 2
  /\ -2 <= perGameSettings_language g <= 5
  /\ -1 <= perGameSettings_boostCpu g <= 1
  /\ -1 <= perGameSettings_boostVram g <= 1
  /\ -1 <= perGameSettings_bootstrapFile g <= 1.

(** The five integer settings of the globals. *)
Definition intSettings (g : Globals) : list Z :=
  [perGameSettings_dsiMode g; perGameSettings_language g; perGameSettings_boostCpu g;
   perGameSettings_boostVram g; perGameSettings_bootstrapFile g].

(** * Properties *)

(** ** The store *)

Section StoreFacts.

Implicit Types (st : Ini.Storage) (f : Ini.CIniFile) (g : Globals) (c : Context).

Lemma open_lookup st path section key :
  Ini.entries (Ini.open st path) !! (section, key) = Ini.stored st path section key.
Proof.
  unfold Ini.open, Ini.stored; simpl.
  destruct (Ini.files st !! path) as [m|]; simpl; [reflexivity | apply lookup_empty].
Qed.

Lemma GetInt_absent f section key dflt :
  Ini.entries f !! (section, key) = None -> Ini.GetInt f section key dflt = dflt.
Proof. intros H; unfold Ini.GetInt; now rewrite H. Qed.

Lemma GetInt_present f section key dflt v :
  Ini.entries f !! (section, key) = Some v -> Ini.GetInt f section key dflt = v.
Proof. intros H; unfold Ini.GetInt; now rewrite H. Qed.

Lemma SetInt_same f section key v :
  Ini.entries (Ini.SetInt f section key v) !! (section, key) = Some v.
Proof. apply lookup_insert_eq. Qed.

Lemma SetInt_other f section key v k :
  k <> (section, key) ->
  Ini.entries (Ini.SetInt f section key v) !! k = Ini.entries f !! k.
Proof. intros H; simpl; apply lookup_insert_ne; congruence. Qed.

Lemma stored_after_save f path st section key :
  Ini.stored (Ini.SaveIniFile f path st) path section key
  = Ini.entries f !! (section, key).
Proof. unfold Ini.stored, Ini.SaveIniFile; simpl. now rewrite lookup_insert_eq. Qed.

Lemma stored_after_save_elsewhere f path path' st section key :
  path <> path' ->
  Ini.stored (Ini.SaveIniFile f path st) path' section key
  = Ini.stored st path' section key.
Proof.
  intros H; unfold Ini.stored, Ini.SaveIniFile; simpl.
  now rewrite lookup_insert_ne.
Qed.

Lemma lastSavedKeys_save f path st :
  lastSavedKeys (Ini.SaveIniFile f path st) = Some (Ini.sets f).
Proof. unfold lastSavedKeys, Ini.SaveIniFile; simpl. now rewrite last_snoc. Qed.

(** The keys [setDsiKeys] adds, and the entries it leaves alone. *)
Lemma setDsiKeys_sets g f :
  Ini.sets (setDsiKeys g f)
  = (Ini.sets f ++ [(GAMESETTINGS, "DSI_MODE"); (GAMESETTINGS, "BOOST_CPU");
                    (GAMESETTINGS, "BOOST_VRAM")])%list.
Proof. unfold setDsiKeys; simpl. now rewrite <- !app_assoc. Qed.

Lemma setDsiKeys_other g f k :
  k <> (GAMESETTINGS, "DSI_MODE") -> k <> (GAMESETTINGS, "BOOST_CPU") ->
  k <> (GAMESETTINGS, "BOOST_VRAM") ->
  Ini.entries (setDsiKeys g f) !! k = Ini.entries f !! k.
Proof.
  intros H1 H2 H3; unfold setDsiKeys.
  now rewrite !SetInt_other.
Qed.

End StoreFacts.

Section SaveFacts.

Variables (c : Context) (filename : string) (g : Globals).

Let path := pergamefilepath c filename.
Let after := storage (savePerGameSettings c filename g).

Lemma save_journal :
  Ini.journal after
  = (Ini.journal (storage g)
       ++ [(path, Ini.sets (filledIni c g (Ini.open (storage g) path)))])%list.
Proof. reflexivity. Qed.

Lemma save_lastSavedKeys :
  lastSavedKeys after = Some (Ini.sets (filledIni c g (Ini.open (storage g) path))).
Proof. apply lastSavedKeys_save. Qed.

Lemma save_stored section key :
  Ini.stored after path section key
  = Ini.entries (filledIni c g (Ini.open (storage g) path)) !! (section, key).
Proof. apply stored_after_save. Qed.

(** A save leaves the in-memory settings as they are. *)
Lemma save_keeps_settings :
  perGameSettingsChanged (savePerGameSettings c filename g) = perGameSettingsChanged g
  /\ perGameSettings_cursorPosition (savePerGameSettings c filename g)
     = perGameSettings_cursorPosition g
  /\ perGameSettings_dsiMode (savePerGameSettings c filename g) = perGameSettings_dsiMode g.
Proof. repeat split. Qed.

End SaveFacts.

Ltac save_cases :=
  unfold filledIni;
  repeat match goal with
         | H : ?b = true |- context [?b] => rewrite H
         | H : ?b = false |- context [?b] => rewrite H
         | H : ?x <> 1 |- context [?x =? 1] =>
             rewrite (proj2 (Z.eqb_neq x 1) H)
         | H : ?x = 1 |- context [?x =? 1] => rewrite H
         end;
  simpl.

(** C5: whatever is missing from the settings file of a title (the file
    itself, or any of its keys), loading puts the sentinel in its place:
    DirectBoot is false on the primary device and true on the secondary one,
    RunMode -1, Language -2, CpuBoost -1, VramBoost -1, BootstrapVariant -1.
    Loading is a total function: it cannot fail. *)
Theorem C5_load_substitutes_sentinels (c : Context) (filename : string) (g : Globals) :
  let path := pergamefilepath c filename in
  let g' := loadPerGameSettings c filename g in
  (Ini.stored (storage g) path GAMESETTINGS "DIRECT_BOOT" = None ->
   perGameSettings_directBoot g' = secondaryDevice c)
  /\ (Ini.stored (storage g) path GAMESETTINGS "DSI_MODE" = None ->
      perGameSettings_dsiMode g' = -1)
  /\ (Ini.stored (storage g) path GAMESETTINGS "LANGUAGE" = None ->
      perGameSettings_language g' = -2)
  /\ (Ini.stored (storage g) path GAMESETTINGS "BOOST_CPU" = None ->
      perGameSettings_boostCpu g' = -1)
  /\ (Ini.stored (storage g) path GAMESETTINGS "BOOST_VRAM" = None ->
      perGameSettings_boostVram g' = -1)
  /\ (Ini.stored (storage g) path GAMESETTINGS "BOOTSTRAP_FILE" = None ->
      perGameSettings_bootstrapFile g' = -1)
  /\ (Ini.files (storage g) !! path = None ->
      perGameSettings_directBoot g' = secondaryDevice c
      /\ perGameSettings_dsiMode g' = -1 /\ perGameSettings_language g' = -2
      /\ perGameSettings_boostCpu g' = -1 /\ perGameSettings_boostVram g' = -1
      /\ perGameSettings_bootstrapFile g' = -1).
Proof.
  intros path g'.
  assert (Hfield : forall key dflt,
             Ini.stored (storage g) path GAMESETTINGS key = None ->
             Ini.GetInt (Ini.open (storage g) path) GAMESETTINGS key dflt = dflt).
  { intros key dflt H. apply GetInt_absent. now rewrite open_lookup. }
  assert (Hdb : forall b : bool, bool_of_int (int_of_bool b) = b) by (now intros []).
  assert (Hnofile : Ini.files (storage g) !! path = None ->
                    forall key, Ini.stored (storage g) path GAMESETTINGS key = None).
  { intros H key. unfold Ini.stored. now rewrite H. }
  subst g'; unfold loadPerGameSettings; fold path; simpl.
  split; [intros H; now rewrite Hfield, Hdb |].
  do 5 (split; [intros H; now apply Hfield |]).
  intros H; specialize (Hnofile H).
  rewrite !Hfield, Hdb by apply Hnofile.
  repeat split.
Qed.

Lemma C5_load_substitutes_sentinels_witness :
  let g' := loadPerGameSettings flashcardDsiContext "game.nds" staleGlobals in
  (perGameSettings_directBoot g' = true
   /\ perGameSettings_dsiMode g' = -1
   /\ perGameSettings_language g' = -2
   /\ perGameSettings_boostCpu g' = -1
   /\ perGameSettings_boostVram g' = -1
   /\ perGameSettings_bootstrapFile g' = -1)
  /\ (perGameSettings_directBoot g' = true
      /\ perGameSettings_dsiMode g' = -1 /\ perGameSettings_language g' = -2
      /\ perGameSettings_boostCpu g' = -1 /\ perGameSettings_boostVram g' = -1
      /\ perGameSettings_bootstrapFile g' = -1).
Proof.
  intros g'.
  destruct (C5_load_substitutes_sentinels flashcardDsiContext "game.nds" staleGlobals)
    as (H1 & H2 & H3 & H4 & H5 & H6 & H7).
  split.
  - refine (conj (H1 _) (conj (H2 _) (conj (H3 _) (conj (H4 _) (conj (H5 _) (H6 _))))));
      vm_compute; reflexivity.
  - apply H7. vm_compute; reflexivity.
Defined.

(** On the primary device the same load gives DirectBoot = false. *)
Example load_fresh_title_sd :
  loadPerGameSettings (dsiSdContext 0) "game.nds" staleGlobals
  = setCursor 3 (initialGlobals noFiles).
Proof. vm_compute; reflexivity. Qed.

(** A stored value is read back; only the absent keys fall back. *)
Example load_partial_file :
  let st := {| Ini.files := {[ pergamefilepath (dsiSdContext 0) "game.nds"
                                 := {[ (GAMESETTINGS, "DSI_MODE") := 1 ]} ]};
               Ini.journal := [] |} in
  let g' := loadPerGameSettings (dsiSdContext 0) "game.nds" (initialGlobals st) in
  perGameSettings_dsiMode g' = 1 /\ perGameSettings_language g' = -2
  /\ perGameSettings_boostCpu g' = -1.
Proof. vm_compute; repeat split. Qed.

(** C9: the anti-piracy notice is shown while no flag is stored for the
    title (NO_SHOW_AP_MSG absent, or 0), and it is no longer shown once
    [dontShowAPMsgAgain] has run for that title. *)
Theorem C9_ap_notice_suppress_roundtrip (c : Context) (filename : string) (st : Ini.Storage) :
  (Ini.stored st (pergamefilepath c filename) GAMESETTINGS "NO_SHOW_AP_MSG" = None
   \/ Ini.stored st (pergamefilepath c filename) GAMESETTINGS "NO_SHOW_AP_MSG" = Some 0 ->
   checkIfShowAPMsg c filename st = true)
  /\ checkIfShowAPMsg c filename (dontShowAPMsgAgain c filename st) = false.
Proof.
  split.
  - intros H. unfold checkIfShowAPMsg, Ini.GetInt.
    rewrite open_lookup. now destruct H as [-> | ->].
  - unfold checkIfShowAPMsg, dontShowAPMsgAgain, Ini.GetInt.
    rewrite open_lookup, stored_after_save, SetInt_same. reflexivity.
Qed.

Lemma C9_ap_notice_suppress_roundtrip_witness :
  checkIfShowAPMsg flashcardDsiContext "game.nds" noFiles = true
  /\ checkIfShowAPMsg flashcardDsiContext "game.nds"
       (dontShowAPMsgAgain flashcardDsiContext "game.nds" noFiles) = false.
Proof.
  destruct (C9_ap_notice_suppress_roundtrip flashcardDsiContext "game.nds" noFiles)
    as [Hshow Hhide].
  split; [apply Hshow; left; vm_compute; reflexivity | exact Hhide].
Defined.

(** The flag of one title does not hide the notice of another one. *)
Lemma dontShowAPMsgAgain_other_title (c : Context) (filename other : string)
      (st : Ini.Storage) :
  pergamefilepath c filename <> pergamefilepath c other ->
  checkIfShowAPMsg c other (dontShowAPMsgAgain c filename st)
  = checkIfShowAPMsg c other st.
Proof.
  intros H. unfold checkIfShowAPMsg, dontShowAPMsgAgain, Ini.GetInt.
  now rewrite !open_lookup, stored_after_save_elsewhere.
Qed.

(** ** The save policy *)

(** A homebrew title edited on a console whose SCFG register is readable
    but which does not run in DSi mode: DirectBoot is toggled once, the
    editor is left, and the save sets DIRECT_BOOT alone. *)
Lemma C3_counterexample :
  let c := scfgOnlyContext 1 true in
  let g := globalsOf (perGameSettings c "homebrew.nds" [KEY_A; KEY_B]
                        (initialGlobals noFiles)) in
  isHomebrew c = 1 /\ REG_SCFG_EXT c <> 0
  /\ Ini.journal (storage g)
     = [(pergamefilepath c "homebrew.nds", [K "DIRECT_BOOT"])]
  /\ lastSavedKeys (storage (savePerGameSettings c "homebrew.nds" (initialGlobals noFiles)))
     = Some [K "DIRECT_BOOT"]
  /\ ~ homebrewSaveOnScfg_as_stated.
Proof.
  intros c g.
  split; [reflexivity |]. split; [discriminate |].
  split; [vm_compute; reflexivity |].
  split; [vm_compute; reflexivity |].
  intros H.
  specialize (H c "homebrew.nds" (initialGlobals noFiles) eq_refl).
  assert (Hne : REG_SCFG_EXT c <> 0) by discriminate.
  specialize (H Hne). vm_compute in H. discriminate H.
Qed.

(** C3, amended: for a homebrew title a save sets exactly DIRECT_BOOT,
    DSI_MODE, BOOST_CPU and BOOST_VRAM when the menu runs in DSi mode, and
    exactly DIRECT_BOOT when it does not, whatever REG_SCFG_EXT holds;
    LANGUAGE and BOOTSTRAP_FILE are never written for a homebrew title. *)
Theorem C3_homebrew_save_keys (c : Context) (filename : string) (g : Globals) :
  isHomebrew c = 1 ->
  let path := pergamefilepath c filename in
  let after := storage (savePerGameSettings c filename g) in
  lastSavedKeys after
  = Some (if isDSiMode c
          then [K "DIRECT_BOOT"; K "DSI_MODE"; K "BOOST_CPU"; K "BOOST_VRAM"]
          else [K "DIRECT_BOOT"])
  /\ Ini.stored after path GAMESETTINGS "LANGUAGE"
     = Ini.stored (storage g) path GAMESETTINGS "LANGUAGE"
  /\ Ini.stored after path GAMESETTINGS "BOOTSTRAP_FILE"
     = Ini.stored (storage g) path GAMESETTINGS "BOOTSTRAP_FILE".
Proof.
  intros Hhb path after. subst after.
  rewrite save_lastSavedKeys, !save_stored. fold path.
  rewrite <- !open_lookup.
  destruct (isDSiMode c) eqn:Hdsi; save_cases;
    (split; [reflexivity |]);
    split; rewrite ?lookup_insert_ne by discriminate; reflexivity.
Qed.

Lemma C3_homebrew_save_keys_witness :
  let c := dsiSdContext 1 in
  let after := storage (savePerGameSettings c "homebrew.nds" staleGlobals) in
  lastSavedKeys after
  = Some [K "DIRECT_BOOT"; K "DSI_MODE"; K "BOOST_CPU"; K "BOOST_VRAM"]
  /\ Ini.stored after (pergamefilepath c "homebrew.nds") GAMESETTINGS "LANGUAGE" = None
  /\ Ini.stored after (pergamefilepath c "homebrew.nds") GAMESETTINGS "BOOTSTRAP_FILE" = None.
Proof.
  intros c after.
  destruct (C3_homebrew_save_keys c "homebrew.nds" staleGlobals eq_refl)
    as (Hkeys & Hlang & Hboot).
  refine (conj Hkeys (conj _ _)).
  - etransitivity; [exact Hlang | vm_compute; reflexivity].
  - etransitivity; [exact Hboot | vm_compute; reflexivity].
Defined.

(** The values a homebrew save does write are the current ones. *)
Lemma homebrew_save_values (c : Context) (filename : string) (g : Globals) :
  isHomebrew c = 1 -> isDSiMode c = true ->
  let path := pergamefilepath c filename in
  let after := storage (savePerGameSettings c filename g) in
  Ini.stored after path GAMESETTINGS "DIRECT_BOOT"
  = Some (int_of_bool (perGameSettings_directBoot g))
  /\ Ini.stored after path GAMESETTINGS "DSI_MODE" = Some (perGameSettings_dsiMode g)
  /\ Ini.stored after path GAMESETTINGS "BOOST_CPU" = Some (perGameSettings_boostCpu g)
  /\ Ini.stored after path GAMESETTINGS "BOOST_VRAM" = Some (perGameSettings_boostVram g).
Proof.
  intros Hhb Hdsi path after. subst after.
  rewrite !save_stored. fold path. save_cases.
  repeat split;
    repeat (first [ apply lookup_insert_eq | rewrite lookup_insert_ne by discriminate ]).
Qed.

(** C4: a title that is not homebrew, on a menu that does not run in DSi
    mode: leaving the editor with the dirty flag set calls the save, which
    sets no key at all; every key of the title's file reads as before
    (whether or not the bootstrap helper is in use). *)
Theorem C4_retail_without_dsi_mode_saves_nothing
        (c : Context) (filename : string) (g : Globals) :
  isHomebrew c <> 1 -> isDSiMode c = false -> perGameSettingsChanged g = true ->
  let path := pergamefilepath c filename in
  let after := storage (exitEditor c filename g) in
  Ini.journal after = (Ini.journal (storage g) ++ [(path, [])])%list
  /\ forall section key,
      Ini.stored after path section key = Ini.stored (storage g) path section key.
Proof.
  intros Hhb Hdsi Hdirty path after. subst after.
  unfold exitEditor. rewrite Hdirty.
  change (storage (setChanged false (savePerGameSettings c filename g)))
    with (storage (savePerGameSettings c filename g)).
  split.
  - rewrite save_journal. fold path. save_cases. reflexivity.
  - intros section key. rewrite save_stored. fold path. save_cases.
    apply open_lookup.
Qed.

(** Scenario D played through the loop: Language is cycled twice on a DS
    without bootstrap helper, then the editor is left. *)
Lemma C4_retail_without_dsi_mode_saves_nothing_witness :
  let c := scfgOnlyContext 0 false in
  let g := globalsOf (loop c "game.nds" [KEY_A; KEY_A]
                        (openEditor c "game.nds" (initialGlobals noFiles))) in
  perGameSettings_language g = 0
  /\ Ini.journal (storage (exitEditor c "game.nds" g))
     = [(pergamefilepath c "game.nds", [])]
  /\ Ini.stored (storage (exitEditor c "game.nds" g))
       (pergamefilepath c "game.nds") GAMESETTINGS "LANGUAGE" = None.
Proof.
  intros c g.
  assert (Hhb : isHomebrew c <> 1) by discriminate.
  destruct (C4_retail_without_dsi_mode_saves_nothing c "game.nds" g Hhb eq_refl eq_refl)
    as [Hj Hs].
  split; [vm_compute; reflexivity |].
  split; [exact Hj |].
  rewrite Hs. reflexivity.
Defined.

(** C10: a title that is not homebrew, menu in DSi mode, settings kept on
    the secondary device (flashcard): a save sets DSI_MODE, BOOST_CPU and
    BOOST_VRAM only; LANGUAGE and BOOTSTRAP_FILE read as before, whatever
    the user chose and whether or not the bootstrap helper is in use.  On
    the primary device the same save sets both of them as well. *)
Theorem C10_flashcard_save_skips_language_and_bootstrap
        (c : Context) (filename : string) (g : Globals) :
  isHomebrew c <> 1 -> isDSiMode c = true ->
  let path := pergamefilepath c filename in
  let after := storage (savePerGameSettings c filename g) in
  (secondaryDevice c = true ->
   lastSavedKeys after = Some [K "DSI_MODE"; K "BOOST_CPU"; K "BOOST_VRAM"]
   /\ Ini.stored after path GAMESETTINGS "LANGUAGE"
      = Ini.stored (storage g) path GAMESETTINGS "LANGUAGE"
   /\ Ini.stored after path GAMESETTINGS "BOOTSTRAP_FILE"
      = Ini.stored (storage g) path GAMESETTINGS "BOOTSTRAP_FILE")
  /\ (secondaryDevice c = false ->
      lastSavedKeys after
      = Some [K "LANGUAGE"; K "DSI_MODE"; K "BOOST_CPU"; K "BOOST_VRAM"; K "BOOTSTRAP_FILE"]
      /\ Ini.stored after path GAMESETTINGS "LANGUAGE" = Some (perGameSettings_language g)
      /\ Ini.stored after path GAMESETTINGS "BOOTSTRAP_FILE"
         = Some (perGameSettings_bootstrapFile g)).
Proof.
  intros Hhb Hdsi path after. subst after.
  rewrite save_lastSavedKeys, !save_stored. fold path.
  rewrite <- !open_lookup.
  split; intros Hsec; save_cases;
    (split; [reflexivity |]);
    split;
    repeat (first [ apply lookup_insert_eq | rewrite lookup_insert_ne by discriminate ]);
    reflexivity.
Qed.

(** Language and bootstrap variant are edited on a flashcard and the editor
    is left: the journal shows the three DSi keys only. *)
Lemma C10_flashcard_save_skips_language_and_bootstrap_witness :
  let c := flashcardDsiContext in
  let g := globalsOf (loop c "game.nds" [KEY_A; KEY_UP; KEY_A]
                        (openEditor c "game.nds" (initialGlobals noFiles))) in
  (perGameSettings_language g = -1 /\ perGameSettings_bootstrapFile g = 0)
  /\ (lastSavedKeys (storage (savePerGameSettings c "game.nds" g))
      = Some [K "DSI_MODE"; K "BOOST_CPU"; K "BOOST_VRAM"]
      /\ Ini.stored (storage (savePerGameSettings c "game.nds" g))
           (pergamefilepath c "game.nds") GAMESETTINGS "LANGUAGE" = None
      /\ Ini.stored (storage (savePerGameSettings c "game.nds" g))
           (pergamefilepath c "game.nds") GAMESETTINGS "BOOTSTRAP_FILE" = None)
  /\ lastSavedKeys (storage (savePerGameSettings (dsiSdContext 0) "game.nds" g))
     = Some [K "LANGUAGE"; K "DSI_MODE"; K "BOOST_CPU"; K "BOOST_VRAM"; K "BOOTSTRAP_FILE"].
Proof.
  intros c g.
  assert (Hhb : isHomebrew c <> 1) by discriminate.
  assert (Hhb' : isHomebrew (dsiSdContext 0) <> 1) by discriminate.
  destruct (C10_flashcard_save_skips_language_and_bootstrap c "game.nds" g Hhb eq_refl)
    as [Hfc _].
  destruct (C10_flashcard_save_skips_language_and_bootstrap
              (dsiSdContext 0) "game.nds" g Hhb' eq_refl) as [_ Hsd].
  destruct (Hfc eq_refl) as (Hk & Hl & Hb).
  destruct (Hsd eq_refl) as (Hk' & _).
  split; [vm_compute; split; reflexivity |].
  split; [| exact Hk'].
  refine (conj Hk (conj _ _)).
  - etransitivity; [exact Hl | vm_compute; reflexivity].
  - etransitivity; [exact Hb | vm_compute; reflexivity].
Defined.

(** ** The editor *)

Section LoopFacts.

Variables (c : Context) (filename : string).

Lemma moveCursor_no_arrow pressed g :
  held pressed KEY_UP = false -> held pressed KEY_DOWN = false ->
  moveCursor c pressed g = g.
Proof. intros Hu Hd; unfold moveCursor; now rewrite Hu, Hd. Qed.

Lemma moveCursor_settings pressed g :
  perGameSettingsChanged (moveCursor c pressed g) = perGameSettingsChanged g
  /\ storage (moveCursor c pressed g) = storage g
  /\ savePerGameSettings c filename (moveCursor c pressed g)
     = setCursor (perGameSettings_cursorPosition (moveCursor c pressed g))
         (savePerGameSettings c filename g).
Proof.
  unfold moveCursor.
  destruct (held pressed KEY_UP), (held pressed KEY_DOWN); repeat split.
Qed.

Lemma iteration_KEY_A_homebrew g :
  armOf c filename = HomebrewArm ->
  iteration c filename KEY_A g = Continue (homebrewActivate g).
Proof. intros H; unfold iteration; rewrite H; reflexivity. Qed.

Lemma iteration_KEY_A_retail g :
  armOf c filename = RetailArm ->
  iteration c filename KEY_A g = Continue (retailActivate g).
Proof. intros H; unfold iteration; rewrite H; reflexivity. Qed.

Lemma loop_KEY_A_homebrew n g :
  armOf c filename = HomebrewArm ->
  loop c filename (repeat KEY_A n) g = Continue (Nat.iter n homebrewActivate g).
Proof.
  intros H; revert g; induction n as [|n IH]; intros g; [reflexivity |].
  cbn [repeat loop]. rewrite iteration_KEY_A_homebrew by assumption.
  rewrite IH. f_equal. symmetry. apply Nat.iter_succ_r.
Qed.

Lemma loop_KEY_A_retail n g :
  armOf c filename = RetailArm ->
  loop c filename (repeat KEY_A n) g = Continue (Nat.iter n retailActivate g).
Proof.
  intros H; revert g; induction n as [|n IH]; intros g; [reflexivity |].
  cbn [repeat loop]. rewrite iteration_KEY_A_retail by assumption.
  rewrite IH. f_equal. symmetry. apply Nat.iter_succ_r.
Qed.

End LoopFacts.

(** The dirty flag after KEY_A in the two editable arms. *)
Lemma homebrewActivate_changed (g : Globals) :
  perGameSettingsChanged (homebrewActivate g) = negb (perGameSettingsChanged g).
Proof.
  unfold homebrewActivate.
  repeat match goal with |- context [if ?b then _ else _] => destruct b end; reflexivity.
Qed.

Lemma retailActivate_changed (g : Globals) :
  perGameSettingsChanged (retailActivate g) = true.
Proof. reflexivity. Qed.

(** C1 (the code departs from it): after KEY_A the dirty flag is meant to be
    set.  For a homebrew title line 444 flips the flag instead: a first
    KEY_A sets it, a second one clears it again, and leaving the editor then
    saves nothing although Direct boot and Run in were both changed.  The
    other editable arm (line 511) sets the flag on every KEY_A. *)
Theorem C1_homebrew_second_activate_clears_dirty :
  let c := dsiSdContext 1 in
  let run keys := globalsOf (perGameSettings c "homebrew.nds" keys (initialGlobals noFiles)) in
  perGameSettingsChanged (run [KEY_A]) = true
  /\ perGameSettingsChanged (run [KEY_A; KEY_DOWN; KEY_A]) = false
  /\ perGameSettings_directBoot (run [KEY_A; KEY_DOWN; KEY_A]) = true
  /\ perGameSettings_dsiMode (run [KEY_A; KEY_DOWN; KEY_A]) = 0
  /\ Ini.journal (storage (run [KEY_A; KEY_DOWN; KEY_A; KEY_B])) = []
  /\ perGameSettingsChanged
       (globalsOf (perGameSettings (dsiSdContext 0) "game.nds" [KEY_A; KEY_DOWN; KEY_A]
                     (initialGlobals noFiles))) = true.
Proof. vm_compute. repeat split. Qed.

(** The boost settings under KEY_A, arm by arm: what guards the cycling. *)
Lemma cycle_boost_moves (x : Z) :
  - 2 ^ 31 <= x < 2 ^ 31 -> cycle (-1) 1 x <> x.
Proof.
  intros Hx. unfold cycle, int_incr, sint32.
  destruct (Z.gtb_spec ((x + 1 + 2 ^ 31) mod 2 ^ 32 - 2 ^ 31) 1) as [H|H];
    revert H; change (2 ^ 31) with 2147483648 in *; change (2 ^ 32) with 4294967296 in *;
    intros H; Z.to_euclidean_division_equations; lia.
Qed.


Lemma homebrew_boostCpu_kept_iff (g : Globals) :
  perGameSettings_cursorPosition g = 2 ->
  - 2 ^ 31 <= perGameSettings_boostCpu g < 2 ^ 31 ->
  (perGameSettings_boostCpu (homebrewActivate g) = perGameSettings_boostCpu g
   <-> perGameSettings_dsiMode g <> 0).
Proof.
  intros Hp Hx. unfold homebrewActivate. rewrite Hp. cbn [Z.eqb Pos.eqb].
  destruct (Z.eqb_spec (perGameSettings_dsiMode g) 0) as [H|H]; cbn.
  - split; [intros E; now apply cycle_boost_moves in E | congruence].
  - split; [congruence | reflexivity].
Qed.


Lemma homebrew_boostVram_kept_iff (g : Globals) :
  perGameSettings_cursorPosition g = 3 ->
  - 2 ^ 31 <= perGameSettings_boostVram g < 2 ^ 31 ->
  (perGameSettings_boostVram (homebrewActivate g) = perGameSettings_boostVram g
   <-> perGameSettings_dsiMode g <> 0).
Proof.
  intros Hp Hx. unfold homebrewActivate. rewrite Hp. cbn [Z.eqb Pos.eqb].
  destruct (Z.eqb_spec (perGameSettings_dsiMode g) 0) as [H|H]; cbn.
  - split; [intros E; now apply cycle_boost_moves in E | congruence].
  - split; [congruence | reflexivity].
Qed.

(** In DSi mode a run mode above 0 makes both rows show the boosted text,
    whatever is stored for them. *)
Lemma boosted_text_when_forced (c : Context) (g : Globals) :
  isDSiMode c = true -> 0 < perGameSettings_dsiMode g ->
  cpuSpeedText c g = "133mhz (TWL)" /\ vramBoostText c g = "On".
Proof.
  intros Hdsi H. unfold cpuSpeedText, vramBoostText. rewrite Hdsi.
  now rewrite (proj2 (Z.gtb_lt _ _) H).
Qed.

(** C2 (the code departs from it): the boost rows are meant to be locked
    only while the run mode forces DSi mode.  For a homebrew title lines 428
    and 434 test [!perGameSettings_dsiMode], so KEY_A is also ignored under
    the default run mode -1, which is not forced: the rows then show
    "Default", and the same keys on a title of the other editable arm
    (lines 495 and 501, [perGameSettings_dsiMode < 1]) do cycle them. *)
Theorem C2_homebrew_default_run_mode_blocks_boost :
  let run c keys := globalsOf (perGameSettings c "title.nds" keys (initialGlobals noFiles)) in
  let hb := dsiSdContext 1 in
  let rt := dsiSdContext 0 in
  (perGameSettings_dsiMode (run hb [KEY_DOWN; KEY_DOWN]) = -1
   /\ perGameSettings_cursorPosition (run hb [KEY_DOWN; KEY_DOWN]) = 2
   /\ cpuSpeedText hb (run hb [KEY_DOWN; KEY_DOWN]) = "Default"
   /\ vramBoostText hb (run hb [KEY_DOWN; KEY_DOWN]) = "Default")
  /\ (perGameSettings_boostCpu (run hb [KEY_DOWN; KEY_DOWN]) = -1
      /\ perGameSettings_boostCpu (run hb [KEY_DOWN; KEY_DOWN; KEY_A]) = -1)
  /\ (perGameSettings_boostVram (run hb [KEY_DOWN; KEY_DOWN; KEY_DOWN]) = -1
      /\ perGameSettings_boostVram (run hb [KEY_DOWN; KEY_DOWN; KEY_DOWN; KEY_A]) = -1)
  /\ (perGameSettings_dsiMode (run rt [KEY_DOWN; KEY_DOWN]) = -1
      /\ perGameSettings_boostCpu (run rt [KEY_DOWN; KEY_DOWN; KEY_A]) = 0
      /\ perGameSettings_boostVram (run rt [KEY_DOWN; KEY_DOWN; KEY_DOWN; KEY_A]) = 0).
Proof. vm_compute. repeat split. Qed.

(** C7: KEY_A pressed twice on Direct boot restores it; pressed 4 times on
    Run in (values -1..2), 8 times on Language (values -2..5) and 3 times on
    Bootstrap (values -1..1) it restores the value it started from; from
    Run in = -1 the four presses give 0, 1, 2, -1. *)
Theorem C7_activate_cycles (c : Context) (filename : string) (g : Globals) :
  let press n := globalsOf (loop c filename (repeat KEY_A n) g) in
  (armOf c filename = HomebrewArm -> perGameSettings_cursorPosition g = 0 ->
   perGameSettings_directBoot (press 2%nat) = perGameSettings_directBoot g)
  /\ (armOf c filename <> InfoArm -> perGameSettings_cursorPosition g = 1 ->
      -1 <= perGameSettings_dsiMode g <= 2 ->
      perGameSettings_dsiMode (press 4%nat) = perGameSettings_dsiMode g)
  /\ (armOf c filename = RetailArm -> perGameSettings_cursorPosition g = 0 ->
      -2 <= perGameSettings_language g <= 5 ->
      perGameSettings_language (press 8%nat) = perGameSettings_language g)
  /\ (armOf c filename <> InfoArm -> perGameSettings_cursorPosition g = 4 ->
      -1 <= perGameSettings_bootstrapFile g <= 1 ->
      perGameSettings_bootstrapFile (press 3%nat) = perGameSettings_bootstrapFile g)
  /\ (armOf c filename <> InfoArm -> perGameSettings_cursorPosition g = 1 ->
      perGameSettings_dsiMode g = -1 ->
      map (fun n => perGameSettings_dsiMode (press n)) [1; 2; 3; 4]%nat = [0; 1; 2; -1]).
Proof.
  intros press. subst press. cbv beta.
  assert (Harm : forall n,
             armOf c filename <> InfoArm ->
             globalsOf (loop c filename (repeat KEY_A n) g) = Nat.iter n homebrewActivate g
             \/ globalsOf (loop c filename (repeat KEY_A n) g) = Nat.iter n retailActivate g).
  { intros n H. destruct (armOf c filename) eqn:E; [left | congruence | right].
    - now rewrite loop_KEY_A_homebrew.
    - now rewrite loop_KEY_A_retail. }
  destruct g as [ch p db dm lg bc bv bf st]; cbn [perGameSettings_cursorPosition
    perGameSettings_directBoot perGameSettings_dsiMode perGameSettings_language
    perGameSettings_bootstrapFile] in *.
  split; [| split; [| split; [| split]]].
  - intros H Hp. rewrite loop_KEY_A_homebrew by assumption. subst p.
    destruct db; reflexivity.
  - intros H Hp Hd. subst p.
    assert (Hv : dm = -1 \/ dm = 0 \/ dm = 1 \/ dm = 2) by lia.
    destruct (Harm 4%nat H) as [-> | ->];
      destruct Hv as [-> | [-> | [-> | ->]]]; reflexivity.
  - intros H Hp Hd. rewrite loop_KEY_A_retail by assumption. subst p.
    assert (Hv : lg = -2 \/ lg = -1 \/ lg = 0 \/ lg = 1 \/ lg = 2 \/ lg = 3
                 \/ lg = 4 \/ lg = 5) by lia.
    destruct Hv as [-> | [-> | [-> | [-> | [-> | [-> | [-> | ->]]]]]]]; reflexivity.
  - intros H Hp Hd. subst p.
    assert (Hv : bf = -1 \/ bf = 0 \/ bf = 1) by lia.
    destruct (Harm 3%nat H) as [-> | ->];
      destruct Hv as [-> | [-> | ->]]; reflexivity.
  - intros H Hp Hd. subst p dm. cbn [map].
    destruct (Harm 1%nat H) as [-> | ->];
      destruct (Harm 2%nat H) as [-> | ->];
      destruct (Harm 3%nat H) as [-> | ->];
      destruct (Harm 4%nat H) as [-> | ->]; reflexivity.
Qed.

Lemma C7_activate_cycles_witness :
  let hb := dsiSdContext 1 in
  let rt := dsiSdContext 0 in
  let press c p n :=
    globalsOf (loop c "title.nds" (repeat KEY_A n) (setCursor p staleGlobals)) in
  perGameSettings_directBoot (press hb 0 2%nat) = false
  /\ perGameSettings_dsiMode (press hb 1 4%nat) = 2
  /\ perGameSettings_language (press rt 0 8%nat) = 4
  /\ perGameSettings_bootstrapFile (press rt 4 3%nat) = 1
  /\ map (fun n => perGameSettings_dsiMode
                     (globalsOf (loop rt "title.nds" (repeat KEY_A n)
                                   (setDsiMode (-1) (setCursor 1 staleGlobals)))))
       [1; 2; 3; 4]%nat = [0; 1; 2; -1].
Proof.
  intros hb rt press. subst press. cbv beta.
  assert (Hhb : armOf hb "title.nds" <> InfoArm) by discriminate.
  assert (Hrt : armOf rt "title.nds" <> InfoArm) by discriminate.
  destruct (C7_activate_cycles hb "title.nds" (setCursor 0 staleGlobals)) as (H1 & _).
  destruct (C7_activate_cycles hb "title.nds" (setCursor 1 staleGlobals)) as (_ & H2 & _).
  destruct (C7_activate_cycles rt "title.nds" (setCursor 0 staleGlobals)) as (_ & _ & H3 & _).
  destruct (C7_activate_cycles rt "title.nds" (setCursor 4 staleGlobals))
    as (_ & _ & _ & H4 & _).
  split; [etransitivity; [apply H1; reflexivity | reflexivity] |].
  split; [etransitivity;
          [apply H2; [exact Hhb | reflexivity | vm_compute; split; discriminate]
          | reflexivity] |].
  split; [etransitivity;
          [apply H3; [reflexivity | reflexivity | vm_compute; split; discriminate]
          | reflexivity] |].
  split; [etransitivity;
          [apply H4; [exact Hrt | reflexivity | vm_compute; split; discriminate]
          | reflexivity] |].
  destruct (C7_activate_cycles rt "title.nds"
              (setDsiMode (-1) (setCursor 1 staleGlobals))) as (_ & _ & _ & _ & H5).
  apply H5; [exact Hrt | reflexivity | reflexivity].
Defined.



(** In the information arm either key leaves the loop and nothing else
    happens. *)
Lemma info_arm_only_leaves (c : Context) (filename : string) (pressed : Z) (g : Globals) :
  armOf c filename = InfoArm ->
  globalsOf (iteration c filename pressed g) = g.
Proof.
  intros H. unfold iteration. rewrite H.
  now destruct (held pressed KEY_A || held pressed KEY_B).
Qed.

(** ** The cursor *)

Section CursorFacts.

Variables (c : Context) (filename : string).

Lemma homebrewActivate_cursor g :
  perGameSettings_cursorPosition (homebrewActivate g) = perGameSettings_cursorPosition g.
Proof.
  unfold homebrewActivate.
  repeat match goal with |- context [if ?b then _ else _] => destruct b end; reflexivity.
Qed.

Lemma retailActivate_cursor g :
  perGameSettings_cursorPosition (retailActivate g) = perGameSettings_cursorPosition g.
Proof.
  unfold retailActivate.
  repeat match goal with |- context [if ?b then _ else _] => destruct b end; reflexivity.
Qed.

Lemma exitEditor_cursor g :
  perGameSettings_cursorPosition (exitEditor c filename g)
  = perGameSettings_cursorPosition g.
Proof. unfold exitEditor. now destruct (perGameSettingsChanged g). Qed.

Lemma openEditor_cursor g :
  perGameSettings_cursorPosition (openEditor c filename g) = 0.
Proof. reflexivity. Qed.

(** A set of rows closed under both arrow keys is kept by the loop. *)
Section Closed.

Variable P : Z -> Prop.
Hypothesis P_up : forall p, P p -> P (cursorUp c p).
Hypothesis P_down : forall p, P p -> P (cursorDown c p).

Lemma moveCursor_closed pressed g :
  P (perGameSettings_cursorPosition g) ->
  P (perGameSettings_cursorPosition (moveCursor c pressed g)).
Proof.
  intros H. unfold moveCursor.
  destruct (held pressed KEY_UP), (held pressed KEY_DOWN);
    cbn [setCursor perGameSettings_cursorPosition]; auto.
Qed.

Lemma iteration_closed pressed g :
  P (perGameSettings_cursorPosition g) ->
  P (perGameSettings_cursorPosition (globalsOf (iteration c filename pressed g))).
Proof.
  intros H0. pose proof (moveCursor_closed pressed g H0) as H.
  unfold iteration.
  destruct (armOf c filename).
  - destruct (held pressed KEY_A), (held pressed KEY_B); cbn [globalsOf];
      rewrite ?exitEditor_cursor, ?homebrewActivate_cursor; exact H.
  - now destruct (held pressed KEY_A || held pressed KEY_B).
  - destruct (held pressed KEY_A), (held pressed KEY_B); cbn [globalsOf];
      rewrite ?exitEditor_cursor, ?retailActivate_cursor; exact H.
Qed.

Lemma loop_closed keys g :
  P (perGameSettings_cursorPosition g) ->
  P (perGameSettings_cursorPosition (globalsOf (loop c filename keys g))).
Proof.
  revert g; induction keys as [|pressed keys IH]; intros g H; [exact H |].
  cbn [loop].
  pose proof (iteration_closed pressed g H) as Hi.
  destruct (iteration c filename pressed g) as [g'|g']; cbn [globalsOf] in *; auto.
Qed.

End Closed.

Lemma rows_bounds_up p : 0 <= p <= 4 -> 0 <= cursorUp c p <= 4.
Proof.
  intros H.
  assert (Hp : p = 0 \/ p = 1 \/ p = 2 \/ p = 3 \/ p = 4) by lia.
  unfold cursorUp.
  destruct (useBootstrap c), (isDSiMode c), (REG_SCFG_EXT c =? 0);
    destruct Hp as [-> | [-> | [-> | [-> | ->]]]]; vm_compute; split; discriminate.
Qed.

Lemma rows_bounds_down p : 0 <= p <= 4 -> 0 <= cursorDown c p <= 4.
Proof.
  intros H.
  assert (Hp : p = 0 \/ p = 1 \/ p = 2 \/ p = 3 \/ p = 4) by lia.
  unfold cursorDown.
  destruct (useBootstrap c), (isDSiMode c), (REG_SCFG_EXT c =? 0);
    destruct Hp as [-> | [-> | [-> | [-> | ->]]]]; vm_compute; split; discriminate.
Qed.

Lemma visibleRows_range p : In p (visibleRows c filename) -> 0 <= p <= 4.
Proof.
  unfold visibleRows. rewrite filter_In. cbn [In]. intros [H _]. lia.
Qed.

Ltac rows_by_cases :=
  unfold rowsAgree, visibleRows, rowDrawn, cursorUp, cursorDown;
  destruct (armOf c filename), (useBootstrap c), (isDSiMode c), (REG_SCFG_EXT c =? 0);
  try discriminate.

Lemma drawn_up p :
  rowsAgree c filename = true -> armOf c filename <> InfoArm ->
  In p (visibleRows c filename) -> In (cursorUp c p) (visibleRows c filename).
Proof.
  intros Hagree Harm Hin.
  pose proof (visibleRows_range p Hin) as Hr.
  assert (Hp : p = 0 \/ p = 1 \/ p = 2 \/ p = 3 \/ p = 4) by lia.
  revert Hagree Harm Hin. rows_by_cases; try congruence; intros _ _;
    destruct Hp as [-> | [-> | [-> | [-> | ->]]]]; vm_compute; intuition congruence.
Qed.

Lemma drawn_down p :
  rowsAgree c filename = true -> armOf c filename <> InfoArm ->
  In p (visibleRows c filename) -> In (cursorDown c p) (visibleRows c filename).
Proof.
  intros Hagree Harm Hin.
  pose proof (visibleRows_range p Hin) as Hr.
  assert (Hp : p = 0 \/ p = 1 \/ p = 2 \/ p = 3 \/ p = 4) by lia.
  revert Hagree Harm Hin. rows_by_cases; try congruence; intros _ _;
    destruct Hp as [-> | [-> | [-> | [-> | ->]]]]; vm_compute; intuition congruence.
Qed.

Lemma drawn_first :
  rowsAgree c filename = true -> armOf c filename <> InfoArm -> In 0 (visibleRows c filename).
Proof. rows_by_cases; try congruence; intros _ _; vm_compute; tauto. Qed.

Lemma drawn_wraps lo hi :
  rowsAgree c filename = true -> armOf c filename <> InfoArm ->
  head (visibleRows c filename) = Some lo -> last (visibleRows c filename) = Some hi ->
  cursorDown c hi = lo /\ cursorUp c lo = hi.
Proof.
  rows_by_cases; try congruence; intros _ _ Hlo Hhi;
    vm_compute in Hlo, Hhi; injection Hlo as <-; injection Hhi as <-;
    vm_compute; split; reflexivity.
Qed.

End CursorFacts.

(** C6 (the code departs from it): the cursor is meant to stand on a drawn
    row and to wrap between the first and the last one, as the arrow keys of
    the bootstrap branch (lines 394-405, 460-471) do.  The branch without
    bootstrap helper (lines 407-414, 473-480) runs between rows 2 and 3 only
    while the cursor still opens on row 0: for a title of the non-homebrew
    arm row 0 (Language) is not drawn, and KEY_A there changes Language
    unseen; for a homebrew title, which draws rows 0..3, Down from the last
    row 3 leads to row 2 and not to the first row 0. *)
Theorem C6_cursor_off_drawn_rows :
  let rt := scfgOnlyContext 0 false in
  let hb := {| isHomebrew := 1; isDSiWare := false; useBootstrap := false;
               secondaryDevice := false; REG_SCFG_EXT := 2147483648; isDSiMode := true |} in
  let run c name keys := globalsOf (perGameSettings c name keys (initialGlobals noFiles)) in
  (armOf rt "game.nds" = RetailArm
   /\ visibleRows rt "game.nds" = [2; 3]
   /\ perGameSettings_cursorPosition (run rt "game.nds" []) = 0
   /\ perGameSettings_language (run rt "game.nds" [KEY_A]) = -1)
  /\ (armOf hb "homebrew.nds" = HomebrewArm
      /\ visibleRows hb "homebrew.nds" = [0; 1; 2; 3]
      /\ cursorDown hb 3 = 2
      /\ perGameSettings_cursorPosition
           (run hb "homebrew.nds" [KEY_DOWN; KEY_DOWN; KEY_DOWN; KEY_DOWN]) = 2)
  /\ (visibleRows (dsiSdContext 1) "homebrew.nds" = [0; 1; 2; 3; 4]
      /\ cursorDown (dsiSdContext 1) 4 = 0 /\ cursorUp (dsiSdContext 1) 0 = 4)
  /\ ~ cursorOnVisibleField_as_stated.
Proof.
  intros rt hb run.
  split; [vm_compute; repeat split |].
  split; [vm_compute; repeat split |].
  split; [vm_compute; repeat split |].
  intros H.
  assert (Harm : armOf rt "game.nds" <> InfoArm) by discriminate.
  destruct (H rt "game.nds" [] (initialGlobals noFiles) Harm) as (_ & Hin & _).
  vm_compute in Hin. intuition congruence.
Qed.

(** Where the arrow keys and the drawing agree: the cursor is a row
    number, 0 when the editor opens and between 0 and 4 throughout.  With
    the bootstrap helper in use and either REG_SCFG_EXT non-zero or a title
    of the non-homebrew arm outside DSi mode, the cursor always stands on a
    drawn row, Down from the last drawn row leads to the first and Up from
    the first to the last. *)
Lemma cursor_rows_with_bootstrap (c : Context) (filename : string) (keys : list Z) (g : Globals) :
  armOf c filename <> InfoArm ->
  let g0 := openEditor c filename g in
  let p := perGameSettings_cursorPosition (globalsOf (loop c filename keys g0)) in
  perGameSettings_cursorPosition g0 = 0
  /\ 0 <= p <= 4
  /\ (rowsAgree c filename = true ->
      In p (visibleRows c filename)
      /\ forall lo hi,
          head (visibleRows c filename) = Some lo ->
          last (visibleRows c filename) = Some hi ->
          cursorDown c hi = lo /\ cursorUp c lo = hi).
Proof.
  intros Harm g0 p. subst p g0.
  split; [reflexivity |].
  split.
  - apply (loop_closed c filename (fun p => 0 <= p <= 4)).
    + apply rows_bounds_up.
    + apply rows_bounds_down.
    + rewrite openEditor_cursor. lia.
  - intros Hagree. split.
    + apply (loop_closed c filename (fun p => In p (visibleRows c filename))).
      * intros p; now apply drawn_up.
      * intros p; now apply drawn_down.
      * rewrite openEditor_cursor. now apply drawn_first.
    + intros lo hi. now apply drawn_wraps.
Qed.

Lemma cursor_rows_with_bootstrap_example :
  let c := scfgOnlyContext 0 true in
  let keys := [KEY_DOWN; KEY_DOWN; KEY_A; KEY_DOWN; KEY_DOWN] in
  let p := perGameSettings_cursorPosition
             (globalsOf (perGameSettings c "game.nds" keys (initialGlobals noFiles))) in
  visibleRows c "game.nds" = [0; 2; 3; 4]
  /\ p = 0
  /\ In p (visibleRows c "game.nds")
  /\ cursorDown c 4 = 0 /\ cursorUp c 0 = 4.
Proof.
  intros c keys p.
  assert (Harm : armOf c "game.nds" <> InfoArm) by discriminate.
  destruct (cursor_rows_with_bootstrap c "game.nds" keys (initialGlobals noFiles) Harm)
    as (_ & _ & Hrows).
  destruct (Hrows eq_refl) as [Hin Hwrap].
  split; [reflexivity |].
  split; [vm_compute; reflexivity |].
  split; [exact Hin |].
  apply Hwrap; reflexivity.
Defined.

(** Outside those contexts the rows and the arrow keys disagree: the cursor
    leaves the drawn rows within two presses of Down, or Down from the last
    drawn row does not lead to the first. *)
Lemma rowsAgree_needed (c : Context) (filename : string) :
  armOf c filename <> InfoArm -> rowsAgree c filename = false ->
  ~ (In 0 (visibleRows c filename)
     /\ In (cursorDown c 0) (visibleRows c filename)
     /\ In (cursorDown c (cursorDown c 0)) (visibleRows c filename)
     /\ forall lo hi,
         head (visibleRows c filename) = Some lo ->
         last (visibleRows c filename) = Some hi -> cursorDown c hi = lo).
Proof.
  unfold rowsAgree, visibleRows, rowDrawn, cursorDown.
  destruct (armOf c filename), (useBootstrap c), (isDSiMode c), (REG_SCFG_EXT c =? 0);
    try discriminate; try congruence; intros _ _ (H0 & H1 & H2 & Hw);
    vm_compute in H0, H1, H2;
    try (intuition congruence);
    specialize (Hw 0 3 eq_refl eq_refl); vm_compute in Hw; discriminate.
Qed.

(** ** The dirty flag between sessions *)

(** [perGameSettingsChanged] is a global that [perGameSettings] does not
    reset on entry; it is clear on entry all the same, because it starts
    clear and every session that is left leaves it clear. *)
Lemma editable_loop_leaves_flag_clear (c : Context) (filename : string) (keys : list Z) :
  armOf c filename <> InfoArm ->
  forall g g', loop c filename keys g = Break g' -> perGameSettingsChanged g' = false.
Proof.
  intros Harm. induction keys as [|pressed keys IH]; intros g g'; [discriminate |].
  cbn [loop]. destruct (iteration c filename pressed g) as [g1|g1] eqn:E.
  - apply IH.
  - intros [= <-]. revert E. unfold iteration.
    destruct (armOf c filename); [| congruence |];
      destruct (held pressed KEY_B); intros [= <-];
      unfold exitEditor;
      match goal with |- context [if perGameSettingsChanged ?x then _ else _] =>
        destruct (perGameSettingsChanged x) eqn:F end; auto.
Qed.

Lemma info_loop_changes_nothing (c : Context) (filename : string) (keys : list Z) :
  armOf c filename = InfoArm ->
  forall g, globalsOf (loop c filename keys g) = g.
Proof.
  intros Harm. induction keys as [|pressed keys IH]; intros g; [reflexivity |].
  cbn [loop]. pose proof (info_arm_only_leaves c filename pressed g Harm) as E.
  destruct (iteration c filename pressed g) as [g1|g1]; cbn [globalsOf] in E; subst g1.
  - apply IH.
  - reflexivity.
Qed.

Lemma session_leaves_flag_clear (c : Context) (filename : string) (keys : list Z)
      (g : Globals) :
  perGameSettingsChanged g = false ->
  isBreak (perGameSettings c filename keys g) = true ->
  perGameSettingsChanged (globalsOf (perGameSettings c filename keys g)) = false.
Proof.
  intros Hclear Hleft. unfold perGameSettings in *.
  destruct (armOf c filename) eqn:Harm.
  - destruct (loop c filename keys (openEditor c filename g)) as [g'|g'] eqn:E;
      [discriminate |].
    apply (editable_loop_leaves_flag_clear c filename keys) in E; [exact E | congruence].
  - rewrite info_loop_changes_nothing by assumption. exact Hclear.
  - destruct (loop c filename keys (openEditor c filename g)) as [g'|g'] eqn:E;
      [discriminate |].
    apply (editable_loop_leaves_flag_clear c filename keys) in E; [exact E | congruence].
Qed.

(** * Further properties *)

(** ** Strings in fixed buffers *)

Section Buffers.

Implicit Types (a b s : string) (n m : nat).

Lemma append_cons ch a b : String ch a +:+ b = String ch (a +:+ b).
Proof. reflexivity. Qed.

Lemma append_nil b : "" +:+ b = b.
Proof. reflexivity. Qed.

Lemma length_append a b :
  String.length (a +:+ b) = (String.length a + String.length b)%nat.
Proof.
  induction a as [|ch a IH]; [reflexivity |].
  rewrite append_cons. cbn [String.length Nat.add]. now rewrite IH.
Qed.

Lemma take_length n s : (String.length (String.substring 0 n s) <= n)%nat.
Proof.
  revert s; induction n as [|n IH]; intros [|ch s]; cbn; try lia.
  specialize (IH s). lia.
Qed.

Lemma take_all n s : (String.length s <= n)%nat -> String.substring 0 n s = s.
Proof.
  revert s; induction n as [|n IH]; intros [|ch s]; cbn; intros H;
    try reflexivity; try lia.
  f_equal. apply IH. lia.
Qed.

Lemma take_append_take n a b :
  String.substring 0 n (a +:+ b) = String.substring 0 n (String.substring 0 n a +:+ b).
Proof.
  revert a; induction n as [|n IH]; intros [|ch a];
    rewrite ?append_cons, ?append_nil; cbn [String.substring];
    rewrite ?append_cons, ?append_nil; try reflexivity.
  - now destruct b.
  - cbn [String.substring]. now rewrite IH.
Qed.

Lemma take_take n m s :
  (m <= n)%nat -> String.substring 0 m (String.substring 0 n s) = String.substring 0 m s.
Proof.
  revert n s; induction m as [|m IH]; intros [|n] [|ch s] H; cbn; try reflexivity; try lia.
  f_equal. apply IH. lia.
Qed.

Lemma append_cancel_r a b s : a +:+ s = b +:+ s -> a = b.
Proof.
  intros H.
  assert (Hlen : String.length a = String.length b).
  { apply (f_equal String.length) in H. rewrite !length_append in H. lia. }
  revert b H Hlen; induction a as [|ch a IH]; intros [|ch' b] H Hlen;
    cbn [String.length] in Hlen; try reflexivity; try discriminate.
  rewrite !append_cons in H.
  injection H as -> H. f_equal. apply IH; [exact H | lia].
Qed.

Lemma append_cancel_l s a b : s +:+ a = s +:+ b -> a = b.
Proof.
  induction s as [|ch s IH]; [auto |].
  rewrite !append_cons. intros [= H]; auto.
Qed.

End Buffers.

Lemma pergamefilepath_split (c : Context) (filename : string) :
  pergamefilepath c filename
  = pathPrefix c
      +:+ String.substring 0 (255 - String.length (pathPrefix c))
            (c_str filename +:+ ".ini").
Proof.
  unfold pergamefilepath, pathPrefix.
  destruct (secondaryDevice c); reflexivity.
Qed.

(** ** The settings path *)

Lemma pathPrefix_length (c : Context) :
  String.length (pathPrefix c) = if secondaryDevice c then 36%nat else 35%nat.
Proof. unfold pathPrefix. now destruct (secondaryDevice c). Qed.

(** The longest name the buffer takes whole, ".ini" included. *)
Lemma pergamefilepath_short (c : Context) (filename : string) :
  (String.length (c_str filename) <= if secondaryDevice c then 215 else 216)%nat ->
  pergamefilepath c filename = pathPrefix c +:+ c_str filename +:+ ".ini".
Proof.
  intros H. rewrite pergamefilepath_split. f_equal.
  apply take_all. rewrite length_append, pathPrefix_length. cbn [String.length].
  destruct (secondaryDevice c); lia.
Qed.

Lemma pergamefilepath_device (c : Context) (filename : string) :
  exists rest,
    pergamefilepath c filename
    = String (if secondaryDevice c then "f" else "s")%char rest.
Proof.
  rewrite pergamefilepath_split. unfold pathPrefix.
  destruct (secondaryDevice c); rewrite !append_cons; eexists; reflexivity.
Qed.

Lemma c_str_without_nul (s : string) :
  ~ In "000"%char (list_ascii_of_string s) -> c_str s = s.
Proof.
  unfold c_str. induction s as [|ch s IH]; [reflexivity |].
  cbn [list_ascii_of_string In before]. intros H.
  destruct (Ascii.eqb_spec ch "000"%char) as [-> | _]; [tauto |].
  f_equal. apply IH. tauto.
Qed.

Lemma take_before (stop : ascii) (n : nat) (s : string) :
  String.substring 0 n (before stop s) = before stop (String.substring 0 n s).
Proof.
  revert s; induction n as [|n IH]; intros [|ch s]; cbn [before String.substring];
    try reflexivity.
  - now destruct (Ascii.eqb ch stop).
  - destruct (Ascii.eqb ch stop); cbn [String.substring]; [reflexivity | now rewrite IH].
Qed.

(** X1: the settings path always fits the 256-byte buffer, and it is the
    device prefix, the name and ".ini" with nothing cut off exactly when the
    name, taken as the C string [%s] prints (up to its first NUL), has at
    most 216 characters on the primary device and 215 on the secondary one. *)
Theorem X1_path_fits_buffer (c : Context) (filename : string) :
  (String.length (pergamefilepath c filename) <= 255)%nat
  /\ (pergamefilepath c filename = pathPrefix c +:+ c_str filename +:+ ".ini"
      <-> (String.length (c_str filename) <= if secondaryDevice c then 215 else 216)%nat).
Proof.
  split; [apply take_length |].
  split; [| apply pergamefilepath_short].
  intros H. pose proof (take_length 255 ((if secondaryDevice c then "fat:" else "sd:")
       +:+ "/_nds/TWiLightMenu/gamesettings/" +:+ c_str filename +:+ ".ini")) as Hlen.
  fold (pergamefilepath c filename) in Hlen. rewrite H in Hlen.
  rewrite !length_append, pathPrefix_length in Hlen. cbn [String.length] in Hlen.
  destruct (secondaryDevice c); lia.
Qed.

Lemma X1_path_fits_buffer_witness :
  pergamefilepath flashcardDsiContext "game.nds"
  = "fat:/_nds/TWiLightMenu/gamesettings/game.nds.ini".
Proof.
  destruct (X1_path_fits_buffer flashcardDsiContext "game.nds") as [_ [_ H]].
  etransitivity; [apply H; vm_compute; lia | reflexivity].
Defined.

(** X2: on one device, two titles whose names, taken as C strings (up to
    the first NUL), have at most 215 characters get the same settings path
    exactly when those C strings are equal; names that differ only after a
    NUL therefore share one file. *)
Theorem X2_short_names_have_own_files (c : Context) (f1 f2 : string) :
  (String.length (c_str f1) <= 215)%nat -> (String.length (c_str f2) <= 215)%nat ->
  (pergamefilepath c f1 = pergamefilepath c f2 <-> c_str f1 = c_str f2).
Proof.
  intros H1 H2.
  rewrite !pergamefilepath_short by (destruct (secondaryDevice c); lia).
  split.
  - intros H. apply append_cancel_l in H. now apply append_cancel_r in H.
  - now intros ->.
Qed.

Lemma X2_short_names_have_own_files_witness :
  pergamefilepath (dsiSdContext 0) "a.nds" <> pergamefilepath (dsiSdContext 0) "b.nds"
  /\ pergamefilepath (dsiSdContext 0) (String "a" (String "000" "x"))
     = pergamefilepath (dsiSdContext 0) (String "a" (String "000" "y")).
Proof.
  split.
  - intros H.
    apply (X2_short_names_have_own_files (dsiSdContext 0) "a.nds" "b.nds") in H;
      [discriminate H | vm_compute; lia ..].
  - apply (X2_short_names_have_own_files (dsiSdContext 0));
      [vm_compute; lia .. | reflexivity].
Defined.

(** X3: the buffer cuts long names: two file names that agree on their
    first 220 characters get the same settings path, whatever follows. *)
Theorem X3_long_names_share_a_file (c : Context) (f1 f2 : string) :
  String.substring 0 220 f1 = String.substring 0 220 f2 ->
  pergamefilepath c f1 = pergamefilepath c f2.
Proof.
  intros H.
  assert (Hc : forall k, (k <= 220)%nat ->
                         String.substring 0 k (c_str f1) = String.substring 0 k (c_str f2)).
  { intros k Hk. unfold c_str. rewrite !take_before.
    rewrite <- (take_take 220 k f1), <- (take_take 220 k f2) by exact Hk.
    now rewrite H. }
  rewrite !pergamefilepath_split, pathPrefix_length. f_equal.
  destruct (secondaryDevice c); cbn [Nat.sub].
  - rewrite (take_append_take 219 (c_str f1)), (take_append_take 219 (c_str f2)).
    now rewrite Hc by lia.
  - rewrite (take_append_take 220 (c_str f1)), (take_append_take 220 (c_str f2)).
    now rewrite Hc by lia.
Qed.

Lemma X3_long_names_share_a_file_witness :
  let stem := Nat.iter 220 (String "a"%char) "" in
  stem +:+ "1.nds" <> stem +:+ "2.nds"
  /\ pergamefilepath (dsiSdContext 0) (stem +:+ "1.nds")
     = pergamefilepath (dsiSdContext 0) (stem +:+ "2.nds").
Proof.
  intros stem. split.
  - intros H. apply append_cancel_l in H. discriminate H.
  - apply X3_long_names_share_a_file. vm_compute. reflexivity.
Defined.

(** ** Loading against saving *)

Section LoadFacts.

Variables (c : Context) (filename : string).

Let path := pergamefilepath c filename.

(** What a load makes of the globals, in terms of what is stored. *)
Lemma load_reads g :
  loadPerGameSettings c filename g
  = {| perGameSettingsChanged := perGameSettingsChanged g;
       perGameSettings_cursorPosition := perGameSettings_cursorPosition g;
       perGameSettings_directBoot :=
         bool_of_int (default (int_of_bool (secondaryDevice c))
                        (Ini.stored (storage g) path GAMESETTINGS "DIRECT_BOOT"));
       perGameSettings_dsiMode :=
         default (-1) (Ini.stored (storage g) path GAMESETTINGS "DSI_MODE");
       perGameSettings_language :=
         default (-2) (Ini.stored (storage g) path GAMESETTINGS "LANGUAGE");
       perGameSettings_boostCpu :=
         default (-1) (Ini.stored (storage g) path GAMESETTINGS "BOOST_CPU");
       perGameSettings_boostVram :=
         default (-1) (Ini.stored (storage g) path GAMESETTINGS "BOOST_VRAM");
       perGameSettings_bootstrapFile :=
         default (-1) (Ini.stored (storage g) path GAMESETTINGS "BOOTSTRAP_FILE");
       storage := storage g |}.
Proof.
  unfold loadPerGameSettings, Ini.GetInt. fold path. now rewrite !open_lookup.
Qed.

(** Loads from two stores that agree on the title's section agree. *)
Lemma load_agrees g st :
  (forall key, In key settingKeys ->
               Ini.stored st path GAMESETTINGS key
               = Ini.stored (storage g) path GAMESETTINGS key) ->
  loadPerGameSettings c filename (withStorage g st)
  = withStorage (loadPerGameSettings c filename g) st.
Proof.
  intros H. rewrite !load_reads. unfold withStorage; cbn.
  now rewrite !H by (cbn; tauto).
Qed.

End LoadFacts.

Lemma filledIni_other (c : Context) (g : Globals) (f : Ini.CIniFile) (section key : string) :
  section <> GAMESETTINGS \/ ~ In key settingKeys ->
  Ini.entries (filledIni c g f) !! (section, key) = Ini.entries f !! (section, key).
Proof.
  intros H.
  assert (Hne : forall k, In k settingKeys -> (GAMESETTINGS, k) <> (section, key)).
  { intros k Hk [= <- <-]. destruct H as [H | H]; [now apply H | now apply H]. }
  unfold filledIni, setDsiKeys.
  destruct (isHomebrew c =? 1), (isDSiMode c), (secondaryDevice c); cbn;
    rewrite ?lookup_insert_ne by (apply Hne; cbn; tauto); reflexivity.
Qed.

Lemma save_other_path (c c' : Context) (filename filename' : string) (g : Globals)
      (section key : string) :
  pergamefilepath c filename <> pergamefilepath c' filename' ->
  Ini.stored (storage (savePerGameSettings c filename g))
    (pergamefilepath c' filename') section key
  = Ini.stored (storage g) (pergamefilepath c' filename') section key.
Proof. intros H. now apply stored_after_save_elsewhere. Qed.

Lemma save_frame
      (c c' : Context) (filename filename' : string) (g : Globals) (section key : string) :
  pergamefilepath c' filename' <> pergamefilepath c filename
  \/ section <> GAMESETTINGS \/ ~ In key settingKeys ->
  Ini.stored (storage (savePerGameSettings c filename g))
    (pergamefilepath c' filename') section key
  = Ini.stored (storage g) (pergamefilepath c' filename') section key.
Proof.
  intros H.
  destruct (String.eqb_spec (pergamefilepath c filename) (pergamefilepath c' filename'))
    as [E | E].
  - rewrite <- E. rewrite save_stored, filledIni_other, open_lookup; [reflexivity |].
    destruct H as [H | H]; [congruence | exact H].
  - now apply save_other_path.
Qed.

Lemma dontShowAPMsgAgain_frame
      (c c' : Context) (filename filename' : string) (st : Ini.Storage) (key : string) :
  key <> "NO_SHOW_AP_MSG" ->
  Ini.stored (dontShowAPMsgAgain c filename st) (pergamefilepath c' filename') GAMESETTINGS key
  = Ini.stored st (pergamefilepath c' filename') GAMESETTINGS key.
Proof.
  intros H. unfold dontShowAPMsgAgain.
  destruct (String.eqb_spec (pergamefilepath c filename) (pergamefilepath c' filename'))
    as [E | E].
  - rewrite <- E. rewrite stored_after_save, SetInt_other, open_lookup; [reflexivity |].
    congruence.
  - now apply stored_after_save_elsewhere.
Qed.

(** X4: a save changes nothing but the six settings keys of the title's own
    file: an entry under another path, in another section, or under another
    key reads after the save as it did before. *)
Theorem X4_save_touches_only_settings
        (c c' : Context) (filename filename' : string) (g : Globals) (section key : string) :
  pergamefilepath c' filename' <> pergamefilepath c filename
  \/ section <> GAMESETTINGS \/ ~ In key settingKeys ->
  Ini.stored (storage (savePerGameSettings c filename g))
    (pergamefilepath c' filename') section key
  = Ini.stored (storage g) (pergamefilepath c' filename') section key.
Proof. apply save_frame. Qed.

Lemma X4_save_touches_only_settings_witness :
  let st := dontShowAPMsgAgain (dsiSdContext 0) "game.nds" noFiles in
  let g := withStorage staleGlobals st in
  Ini.stored (storage (savePerGameSettings (dsiSdContext 0) "game.nds" g))
    (pergamefilepath (dsiSdContext 0) "game.nds") GAMESETTINGS "NO_SHOW_AP_MSG" = Some 1.
Proof.
  intros st g.
  etransitivity.
  - apply (X4_save_touches_only_settings (dsiSdContext 0) (dsiSdContext 0)).
    right; right. cbn. intuition discriminate.
  - vm_compute. reflexivity.
Defined.

(** X5: saving the settings of any title never changes whether the
    anti-piracy notice is shown, for that title or any other. *)
Theorem X5_save_keeps_ap_flag (c c' : Context) (filename filename' : string) (g : Globals) :
  checkIfShowAPMsg c' filename' (storage (savePerGameSettings c filename g))
  = checkIfShowAPMsg c' filename' (storage g).
Proof.
  unfold checkIfShowAPMsg, Ini.GetInt. rewrite !open_lookup.
  rewrite save_frame; [reflexivity |].
  right; right. cbn. intuition discriminate.
Qed.

(** X6: hiding the anti-piracy notice of any title leaves the settings of
    every title as they are: a load afterwards gives what it gave before. *)
Theorem X6_ap_flag_keeps_settings (c c' : Context) (filename filename' : string) (g : Globals) :
  loadPerGameSettings c' filename'
    (withStorage g (dontShowAPMsgAgain c filename (storage g)))
  = withStorage (loadPerGameSettings c' filename' g)
      (dontShowAPMsgAgain c filename (storage g)).
Proof.
  apply load_agrees. intros key Hk.
  apply dontShowAPMsgAgain_frame.
  intros ->. cbn in Hk. intuition discriminate.
Qed.

Lemma bool_of_int_of_bool (b : bool) : bool_of_int (int_of_bool b) = b.
Proof. now destruct b. Qed.

(** X7: for a title that is not homebrew, on the primary device and in DSi
    mode, saving and loading again gives back the five integer settings
    (Run in, Language, both boosts, Bootstrap) exactly as they were. *)
Theorem X7_retail_save_load_roundtrip (c : Context) (filename : string) (g : Globals) :
  isHomebrew c <> 1 -> isDSiMode c = true -> secondaryDevice c = false ->
  intSettings (loadPerGameSettings c filename (savePerGameSettings c filename g))
  = intSettings g.
Proof.
  intros Hhb Hdsi Hsd. rewrite load_reads, !save_stored. save_cases.
  unfold intSettings; cbn.
  repeat (first [ rewrite lookup_insert_eq
                | rewrite lookup_insert_ne by discriminate ]).
  reflexivity.
Qed.

Lemma X7_retail_save_load_roundtrip_witness :
  intSettings (loadPerGameSettings (dsiSdContext 0) "game.nds"
                 (savePerGameSettings (dsiSdContext 0) "game.nds" staleGlobals))
  = [2; 4; 1; 0; 1].
Proof.
  etransitivity.
  - apply X7_retail_save_load_roundtrip; [discriminate | reflexivity | reflexivity].
  - reflexivity.
Defined.

(** X8: for a homebrew title, saving and loading again gives back Direct
    boot; in DSi mode also Run in and both boosts.  Language and Bootstrap
    are not saved: the load gives what the file held for them before. *)
Theorem X8_homebrew_save_load_roundtrip (c : Context) (filename : string) (g : Globals) :
  isHomebrew c = 1 ->
  let again := loadPerGameSettings c filename (savePerGameSettings c filename g) in
  let before := loadPerGameSettings c filename g in
  perGameSettings_directBoot again = perGameSettings_directBoot g
  /\ (isDSiMode c = true ->
      perGameSettings_dsiMode again = perGameSettings_dsiMode g
      /\ perGameSettings_boostCpu again = perGameSettings_boostCpu g
      /\ perGameSettings_boostVram again = perGameSettings_boostVram g)
  /\ perGameSettings_language again = perGameSettings_language before
  /\ perGameSettings_bootstrapFile again = perGameSettings_bootstrapFile before.
Proof.
  intros Hhb again before. subst again before.
  rewrite !load_reads, !save_stored. cbn.
  rewrite <- !open_lookup.
  split; [| split; [intros Hdsi | split]].
  - destruct (isDSiMode c) eqn:Hdsi; save_cases;
      rewrite ?lookup_insert_ne by discriminate; rewrite lookup_insert_eq;
      apply bool_of_int_of_bool.
  - save_cases.
    repeat split;
      repeat (first [ rewrite lookup_insert_eq
                    | rewrite lookup_insert_ne by discriminate ]); reflexivity.
  - destruct (isDSiMode c) eqn:Hdsi; save_cases;
      rewrite ?lookup_insert_ne by discriminate; reflexivity.
  - destruct (isDSiMode c) eqn:Hdsi; save_cases;
      rewrite ?lookup_insert_ne by discriminate; reflexivity.
Qed.

Lemma X8_homebrew_save_load_roundtrip_witness :
  let again := loadPerGameSettings (dsiSdContext 1) "homebrew.nds"
                 (savePerGameSettings (dsiSdContext 1) "homebrew.nds" staleGlobals) in
  perGameSettings_directBoot again = false
  /\ (perGameSettings_dsiMode again = 2
      /\ perGameSettings_boostCpu again = 1
      /\ perGameSettings_boostVram again = 0)
  /\ perGameSettings_language again = -2
  /\ perGameSettings_bootstrapFile again = -1.
Proof.
  intros again.
  destruct (X8_homebrew_save_load_roundtrip (dsiSdContext 1) "homebrew.nds" staleGlobals
              eq_refl) as (Hdb & Hdsi & Hlang & Hboot).
  refine (conj Hdb (conj (Hdsi eq_refl) (conj _ _))).
  - etransitivity; [exact Hlang | reflexivity].
  - etransitivity; [exact Hboot | reflexivity].
Defined.

(** X9: for a title that is not homebrew, outside DSi mode, what was edited
    cannot be read back: a load after the save gives exactly what a load
    without it gives. *)
Theorem X9_retail_edits_not_persisted (c : Context) (filename : string) (g : Globals) :
  isHomebrew c <> 1 -> isDSiMode c = false ->
  loadPerGameSettings c filename (savePerGameSettings c filename g)
  = withStorage (loadPerGameSettings c filename g)
      (storage (savePerGameSettings c filename g)).
Proof.
  intros Hhb Hdsi.
  change (savePerGameSettings c filename g)
    with (withStorage g (storage (savePerGameSettings c filename g))) at 1.
  apply load_agrees. intros key _.
  rewrite save_stored. save_cases. apply open_lookup.
Qed.

Lemma X9_retail_edits_not_persisted_witness :
  intSettings (loadPerGameSettings (scfgOnlyContext 0 true) "game.nds"
                 (savePerGameSettings (scfgOnlyContext 0 true) "game.nds" staleGlobals))
  = [-1; -2; -1; -1; -1].
Proof.
  rewrite X9_retail_edits_not_persisted; [reflexivity | discriminate | reflexivity].
Defined.

(** X10: the two devices keep separate files: the settings path on the
    secondary device differs from every path on the primary one, and a save
    made on one device never changes what a load on the other one gives. *)
Theorem X10_devices_keep_separate_settings
        (c c' : Context) (filename filename' : string) (g : Globals) :
  secondaryDevice c = negb (secondaryDevice c') ->
  pergamefilepath c filename <> pergamefilepath c' filename'
  /\ loadPerGameSettings c' filename' (savePerGameSettings c filename g)
     = withStorage (loadPerGameSettings c' filename' g)
         (storage (savePerGameSettings c filename g)).
Proof.
  intros Hdev.
  assert (Hne : pergamefilepath c filename <> pergamefilepath c' filename').
  { destruct (pergamefilepath_device c filename) as [r ->].
    destruct (pergamefilepath_device c' filename') as [r' ->].
    rewrite Hdev. destruct (secondaryDevice c'); discriminate. }
  split; [exact Hne |].
  change (savePerGameSettings c filename g)
    with (withStorage g (storage (savePerGameSettings c filename g))) at 1.
  apply load_agrees. intros key _.
  apply save_frame. left. congruence.
Qed.

Lemma X10_devices_keep_separate_settings_witness :
  intSettings (loadPerGameSettings (dsiSdContext 0) "game.nds"
                 (savePerGameSettings flashcardDsiContext "game.nds" staleGlobals))
  = [-1; -2; -1; -1; -1].
Proof.
  destruct (X10_devices_keep_separate_settings flashcardDsiContext (dsiSdContext 0)
              "game.nds" "game.nds" staleGlobals eq_refl) as [_ H].
  rewrite H. reflexivity.
Defined.

(** ** What a session keeps *)

Section LoopInvariant.

Variables (c : Context) (filename : string) (I : Globals -> Prop).

Hypothesis I_move : forall pressed g, I g -> I (moveCursor c pressed g).
Hypothesis I_activate :
  forall g, I g ->
            match armOf c filename with
            | HomebrewArm => I (homebrewActivate g)
            | RetailArm => I (retailActivate g)
            | InfoArm => True
            end.
Hypothesis I_exit : forall g, I g -> I (exitEditor c filename g).

Lemma iteration_invariant pressed g :
  I g -> I (globalsOf (iteration c filename pressed g)).
Proof.
  intros H. pose proof (I_move pressed g H) as Hm.
  pose proof (I_activate (moveCursor c pressed g) Hm) as Ha.
  unfold iteration. destruct (armOf c filename).
  - destruct (held pressed KEY_A), (held pressed KEY_B); cbn [globalsOf]; auto.
  - now destruct (held pressed KEY_A || held pressed KEY_B).
  - destruct (held pressed KEY_A), (held pressed KEY_B); cbn [globalsOf]; auto.
Qed.

Lemma loop_invariant keys g : I g -> I (globalsOf (loop c filename keys g)).
Proof.
  revert g; induction keys as [|pressed keys IH]; intros g H; [exact H |].
  cbn [loop]. pose proof (iteration_invariant pressed g H) as Hi.
  destruct (iteration c filename pressed g) as [g'|g']; cbn [globalsOf] in *; auto.
Qed.

End LoopInvariant.

Lemma moveCursor_fields (c : Context) (pressed : Z) (g : Globals) :
  intSettings (moveCursor c pressed g) = intSettings g
  /\ perGameSettings_directBoot (moveCursor c pressed g) = perGameSettings_directBoot g.
Proof.
  unfold moveCursor. now destruct (held pressed KEY_UP), (held pressed KEY_DOWN).
Qed.

Lemma exitEditor_fields (c : Context) (filename : string) (g : Globals) :
  intSettings (exitEditor c filename g) = intSettings g
  /\ perGameSettings_directBoot (exitEditor c filename g) = perGameSettings_directBoot g.
Proof. unfold exitEditor. now destruct (perGameSettingsChanged g). Qed.

Lemma inDomain_intSettings (g g' : Globals) :
  intSettings g' = intSettings g -> inDomain g -> inDomain g'.
Proof. unfold intSettings, inDomain. intros [= -> -> -> -> ->]. auto. Qed.

Lemma cycle_in_range (lo hi x : Z) :
  -2 <= lo -> hi <= 5 -> lo <= x <= hi -> lo <= cycle lo hi x <= hi.
Proof.
  intros Hlo Hhi Hx. unfold cycle, int_incr, sint32.
  change (2 ^ 31) with 2147483648. change (2 ^ 32) with 4294967296.
  replace ((x + 1 + 2147483648) mod 4294967296) with (x + 1 + 2147483648)
    by (symmetry; apply Z.mod_small; lia).
  destruct (Z.gtb_spec (x + 1 + 2147483648 - 2147483648) hi); lia.
Qed.

Lemma homebrewActivate_inDomain (g : Globals) : inDomain g -> inDomain (homebrewActivate g).
Proof.
  unfold inDomain, homebrewActivate. intros (H1 & H2 & H3 & H4 & H5).
  pose proof (cycle_in_range (-1) 2 _ ltac:(lia) ltac:(lia) H1).
  pose proof (cycle_in_range (-1) 1 _ ltac:(lia) ltac:(lia) H3).
  pose proof (cycle_in_range (-1) 1 _ ltac:(lia) ltac:(lia) H4).
  pose proof (cycle_in_range (-1) 1 _ ltac:(lia) ltac:(lia) H5).
  repeat match goal with |- context [if ?b then _ else _] => destruct b end;
    cbn; auto.
Qed.

Lemma retailActivate_inDomain (g : Globals) : inDomain g -> inDomain (retailActivate g).
Proof.
  unfold inDomain, retailActivate. intros (H1 & H2 & H3 & H4 & H5).
  pose proof (cycle_in_range (-1) 2 _ ltac:(lia) ltac:(lia) H1).
  pose proof (cycle_in_range (-2) 5 _ ltac:(lia) ltac:(lia) H2).
  pose proof (cycle_in_range (-1) 1 _ ltac:(lia) ltac:(lia) H3).
  pose proof (cycle_in_range (-1) 1 _ ltac:(lia) ltac:(lia) H4).
  pose proof (cycle_in_range (-1) 1 _ ltac:(lia) ltac:(lia) H5).
  repeat match goal with |- context [if ?b then _ else _] => destruct b end;
    cbn; auto.
Qed.

(** X11: settings that lie in their ranges (Run in -1..2, Language -2..5,
    the boosts and Bootstrap -1..1) stay in them whatever keys arrive; this
    is the case in particular for a title without settings file. *)
Theorem X11_settings_stay_in_range
        (c : Context) (filename : string) (keys : list Z) (g : Globals) :
  (inDomain g -> inDomain (globalsOf (loop c filename keys g)))
  /\ (Ini.files (storage g) !! pergamefilepath c filename = None ->
      inDomain (globalsOf (perGameSettings c filename keys g))).
Proof.
  assert (Hloop : forall g0, inDomain g0 -> inDomain (globalsOf (loop c filename keys g0))).
  { intros g0. apply loop_invariant.
    - intros pressed g1. apply inDomain_intSettings, moveCursor_fields.
    - intros g1 H. destruct (armOf c filename);
        [now apply homebrewActivate_inDomain | exact Logic.I | now apply retailActivate_inDomain].
    - intros g1. apply inDomain_intSettings, exitEditor_fields. }
  split; [apply Hloop |].
  intros Hnone. apply Hloop.
  unfold openEditor. rewrite load_reads. unfold Ini.stored, inDomain; cbn.
  rewrite Hnone; cbn. lia.
Qed.

Lemma X11_settings_stay_in_range_witness :
  let keys := [KEY_A; KEY_DOWN; KEY_A; KEY_A; KEY_A; KEY_A; KEY_UP; KEY_UP; KEY_A; KEY_A] in
  inDomain (globalsOf (loop (dsiSdContext 0) "game.nds" keys staleGlobals))
  /\ inDomain (globalsOf (perGameSettings (dsiSdContext 1) "homebrew.nds" keys staleGlobals)).
Proof.
  intros keys.
  destruct (X11_settings_stay_in_range (dsiSdContext 0) "game.nds" keys staleGlobals)
    as [H1 _].
  destruct (X11_settings_stay_in_range (dsiSdContext 1) "homebrew.nds" keys staleGlobals)
    as [_ H2].
  split; [apply H1; vm_compute; intuition discriminate | apply H2; reflexivity].
Defined.

Lemma homebrewActivate_language (g : Globals) :
  perGameSettings_language (homebrewActivate g) = perGameSettings_language g.
Proof.
  unfold homebrewActivate.
  repeat match goal with |- context [if ?b then _ else _] => destruct b end; reflexivity.
Qed.

Lemma retailActivate_directBoot (g : Globals) :
  perGameSettings_directBoot (retailActivate g) = perGameSettings_directBoot g.
Proof.
  unfold retailActivate.
  repeat match goal with |- context [if ?b then _ else _] => destruct b end; reflexivity.
Qed.

Lemma intSettings_language (g g' : Globals) :
  intSettings g' = intSettings g -> perGameSettings_language g' = perGameSettings_language g.
Proof. unfold intSettings. now intros [= _ -> _ _ _]. Qed.

(** X12: no key sequence changes Language for a homebrew title, and none
    changes Direct boot for any other title. *)
Theorem X12_arm_never_edits_foreign_setting
        (c : Context) (filename : string) (keys : list Z) (g : Globals) :
  (armOf c filename = HomebrewArm ->
   perGameSettings_language (globalsOf (loop c filename keys g))
   = perGameSettings_language g)
  /\ (armOf c filename <> HomebrewArm ->
      perGameSettings_directBoot (globalsOf (loop c filename keys g))
      = perGameSettings_directBoot g).
Proof.
  split; intros Harm.
  - apply (loop_invariant c filename
             (fun g' => perGameSettings_language g' = perGameSettings_language g));
      [| | | reflexivity].
    + intros pressed g1 <-. apply intSettings_language, moveCursor_fields.
    + intros g1 <-. rewrite Harm. apply homebrewActivate_language.
    + intros g1 <-. apply intSettings_language, exitEditor_fields.
  - apply (loop_invariant c filename
             (fun g' => perGameSettings_directBoot g' = perGameSettings_directBoot g));
      [| | | reflexivity].
    + intros pressed g1 <-. apply moveCursor_fields.
    + intros g1 <-. destruct (armOf c filename);
        [congruence | exact Logic.I | apply retailActivate_directBoot].
    + intros g1 <-. apply exitEditor_fields.
Qed.

Lemma X12_arm_never_edits_foreign_setting_witness :
  let keys := [KEY_A; KEY_DOWN; KEY_A; KEY_UP; KEY_UP; KEY_A; KEY_B] in
  perGameSettings_language
    (globalsOf (loop (dsiSdContext 1) "homebrew.nds" keys staleGlobals)) = 4
  /\ perGameSettings_directBoot
       (globalsOf (loop (dsiSdContext 0) "game.nds" keys staleGlobals)) = false.
Proof.
  intros keys.
  destruct (X12_arm_never_edits_foreign_setting (dsiSdContext 1) "homebrew.nds" keys
              staleGlobals) as [H1 _].
  destruct (X12_arm_never_edits_foreign_setting (dsiSdContext 0) "game.nds" keys
              staleGlobals) as [_ H2].
  split.
  - etransitivity; [apply H1; reflexivity | reflexivity].
  - etransitivity; [apply H2; discriminate | reflexivity].
Defined.

(** X13: without bootstrap helper, once the cursor is on row 2 or 3 it stays
    there, so from then on a session can change the two boosts only: Direct
    boot, Run in, Language and Bootstrap keep their values. *)
Theorem X13_without_bootstrap_only_boost_rows
        (c : Context) (filename : string) (keys : list Z) (g : Globals) :
  useBootstrap c = false -> 2 <= perGameSettings_cursorPosition g <= 3 ->
  let g' := globalsOf (loop c filename keys g) in
  2 <= perGameSettings_cursorPosition g' <= 3
  /\ perGameSettings_directBoot g' = perGameSettings_directBoot g
  /\ perGameSettings_dsiMode g' = perGameSettings_dsiMode g
  /\ perGameSettings_language g' = perGameSettings_language g
  /\ perGameSettings_bootstrapFile g' = perGameSettings_bootstrapFile g.
Proof.
  intros Hboot Hrow g'. subst g'.
  apply (loop_invariant c filename
           (fun g' => 2 <= perGameSettings_cursorPosition g' <= 3
                      /\ perGameSettings_directBoot g' = perGameSettings_directBoot g
                      /\ perGameSettings_dsiMode g' = perGameSettings_dsiMode g
                      /\ perGameSettings_language g' = perGameSettings_language g
                      /\ perGameSettings_bootstrapFile g' = perGameSettings_bootstrapFile g));
    [| | | auto].
  - intros pressed g1 (Hp & H).
    assert (Hup : forall p, 2 <= p <= 3 -> 2 <= cursorUp c p <= 3).
    { intros p Hr. assert (Hv : p = 2 \/ p = 3) by lia. unfold cursorUp. rewrite Hboot.
      destruct Hv as [-> | ->]; vm_compute; split; discriminate. }
    assert (Hdown : forall p, 2 <= p <= 3 -> 2 <= cursorDown c p <= 3).
    { intros p Hr. assert (Hv : p = 2 \/ p = 3) by lia. unfold cursorDown. rewrite Hboot.
      destruct Hv as [-> | ->]; vm_compute; split; discriminate. }
    unfold moveCursor.
    destruct (held pressed KEY_UP), (held pressed KEY_DOWN);
      cbn [setCursor perGameSettings_cursorPosition perGameSettings_directBoot
           perGameSettings_dsiMode perGameSettings_language perGameSettings_bootstrapFile];
      auto.
  - intros g1 (Hp & H).
    assert (Hv : perGameSettings_cursorPosition g1 = 2
                 \/ perGameSettings_cursorPosition g1 = 3) by lia.
    destruct (armOf c filename); [| exact Logic.I |];
      unfold homebrewActivate, retailActivate;
      destruct Hv as [E | E]; rewrite E; cbn [Z.eqb Pos.eqb];
      repeat match goal with |- context [if ?b then _ else _] => destruct b end;
      cbn; rewrite ?E; (split; [lia | exact H]).
  - intros g1 (Hp & H). unfold exitEditor.
    destruct (perGameSettingsChanged g1); cbn; auto.
Qed.

Lemma X13_without_bootstrap_only_boost_rows_witness :
  let c := scfgOnlyContext 0 false in
  let g := setDsiMode 0 staleGlobals in
  let g' := globalsOf (loop c "game.nds" [KEY_A; KEY_DOWN; KEY_A; KEY_DOWN; KEY_DOWN] g) in
  (2 <= perGameSettings_cursorPosition g' <= 3
   /\ perGameSettings_directBoot g' = false
   /\ perGameSettings_dsiMode g' = 0
   /\ perGameSettings_language g' = 4
   /\ perGameSettings_bootstrapFile g' = 1)
  /\ perGameSettings_boostVram g' = 1 /\ perGameSettings_boostCpu g' = -1.
Proof.
  intros c g g'. split.
  - apply (X13_without_bootstrap_only_boost_rows c "game.nds" _ g);
      [reflexivity | vm_compute; split; discriminate].
  - vm_compute. split; reflexivity.
Defined.

(** X14: with bootstrap helper and outside DSi mode the cursor never stands
    on row 1 (Run in), and no key sequence changes the run mode that was
    loaded when the editor opened. *)
Theorem X14_run_mode_locked_outside_dsi_mode
        (c : Context) (filename : string) (keys : list Z) (g : Globals) :
  useBootstrap c = true -> isDSiMode c = false ->
  let g0 := openEditor c filename g in
  let g' := globalsOf (loop c filename keys g0) in
  perGameSettings_cursorPosition g' <> 1
  /\ perGameSettings_dsiMode g' = perGameSettings_dsiMode g0.
Proof.
  intros Hboot Hdsi g0 g'. subst g'.
  set (rows := if REG_SCFG_EXT c =? 0 then [0; 4] else [0; 2; 3; 4]).
  assert (Hup : forall p, In p rows -> In (cursorUp c p) rows).
  { intros p. unfold rows, cursorUp. rewrite Hboot, Hdsi.
    destruct (REG_SCFG_EXT c =? 0); cbn [In];
      intros H; repeat (destruct H as [<- | H]; [vm_compute; tauto |]); contradiction. }
  assert (Hdown : forall p, In p rows -> In (cursorDown c p) rows).
  { intros p. unfold rows, cursorDown. rewrite Hboot, Hdsi.
    destruct (REG_SCFG_EXT c =? 0); cbn [In];
      intros H; repeat (destruct H as [<- | H]; [vm_compute; tauto |]); contradiction. }
  assert (Hnot1 : forall p, In p rows -> p <> 1).
  { intros p. unfold rows. destruct (REG_SCFG_EXT c =? 0); cbn [In];
      intuition (subst; discriminate). }
  enough (H : In (perGameSettings_cursorPosition (globalsOf (loop c filename keys g0))) rows
              /\ perGameSettings_dsiMode (globalsOf (loop c filename keys g0))
                 = perGameSettings_dsiMode g0)
    by (split; [apply Hnot1 |]; apply H).
  apply (loop_invariant c filename
           (fun g' => In (perGameSettings_cursorPosition g') rows
                      /\ perGameSettings_dsiMode g' = perGameSettings_dsiMode g0)).
  - intros pressed g1 (Hp & H). unfold moveCursor.
    destruct (held pressed KEY_UP), (held pressed KEY_DOWN);
      cbn [setCursor perGameSettings_cursorPosition perGameSettings_dsiMode]; auto.
  - intros g1 (Hp & H). pose proof (Hnot1 _ Hp) as Hne.
    apply Z.eqb_neq in Hne.
    destruct (armOf c filename); [| exact Logic.I |];
      unfold homebrewActivate, retailActivate; rewrite Hne;
      repeat match goal with |- context [if ?b then _ else _] => destruct b end;
      cbn; auto.
  - intros g1 (Hp & H). unfold exitEditor.
    destruct (perGameSettingsChanged g1); cbn; auto.
  - split; [| reflexivity]. unfold rows, g0. rewrite openEditor_cursor.
    destruct (REG_SCFG_EXT c =? 0); cbn; tauto.
Qed.

Lemma X14_run_mode_locked_outside_dsi_mode_witness :
  let c := scfgOnlyContext 1 true in
  let g' := globalsOf (perGameSettings c "homebrew.nds"
                         [KEY_DOWN; KEY_A; KEY_UP; KEY_UP; KEY_A] staleGlobals) in
  perGameSettings_cursorPosition g' <> 1 /\ perGameSettings_dsiMode g' = -1.
Proof.
  intros c g'.
  destruct (X14_run_mode_locked_outside_dsi_mode c "homebrew.nds"
              [KEY_DOWN; KEY_A; KEY_UP; KEY_UP; KEY_A] staleGlobals eq_refl eq_refl)
    as [Hrow Hmode].
  split; [exact Hrow | etransitivity; [exact Hmode | reflexivity]].
Defined.

Lemma info_loop_isBreak (c : Context) (filename : string) (keys : list Z) (g : Globals) :
  armOf c filename = InfoArm ->
  isBreak (loop c filename keys g)
  = existsb (fun pressed => held pressed KEY_A || held pressed KEY_B) keys.
Proof.
  intros Harm. revert g; induction keys as [|pressed keys IH]; intros g; [reflexivity |].
  cbn [loop existsb]. unfold iteration. rewrite Harm.
  destruct (held pressed KEY_A || held pressed KEY_B); [reflexivity | apply IH].
Qed.

(** X15: for a title shown with the information box only (DSiWare, a
    launcharg file, isHomebrew == 2, or neither bootstrap helper nor SCFG
    register) a session does nothing beyond resetting the cursor and
    loading: no setting, flag or file changes, and the loop is left exactly
    when a mask with KEY_A or KEY_B arrives. *)
Theorem X15_information_box_changes_nothing
        (c : Context) (filename : string) (keys : list Z) (g : Globals) :
  armOf c filename = InfoArm ->
  globalsOf (perGameSettings c filename keys g) = openEditor c filename g
  /\ storage (globalsOf (perGameSettings c filename keys g)) = storage g
  /\ isBreak (perGameSettings c filename keys g)
     = existsb (fun pressed => held pressed KEY_A || held pressed KEY_B) keys.
Proof.
  intros Harm. unfold perGameSettings.
  rewrite info_loop_changes_nothing by assumption.
  repeat split. now apply info_loop_isBreak.
Qed.

Lemma X15_information_box_changes_nothing_witness :
  let c := {| isHomebrew := 0; isDSiWare := true; useBootstrap := true;
              secondaryDevice := false; REG_SCFG_EXT := 2147483648; isDSiMode := true |} in
  let o := perGameSettings c "ware.nds" [KEY_DOWN; KEY_UP; KEY_A; KEY_B]
             (setChanged false staleGlobals) in
  globalsOf o = openEditor c "ware.nds" (setChanged false staleGlobals)
  /\ storage (globalsOf o) = noFiles
  /\ isBreak o = true.
Proof.
  intros c o.
  destruct (X15_information_box_changes_nothing c "ware.nds" [KEY_DOWN; KEY_UP; KEY_A; KEY_B]
              (setChanged false staleGlobals) eq_refl) as (H1 & H2 & H3).
  refine (conj H1 (conj H2 _)). etransitivity; [exact H3 | reflexivity].
Defined.

(** X16: [perGameSettingsChanged] is never reset on entry, yet a session
    entered with the flag clear and left through KEY_A or KEY_B always
    leaves it clear for the next one. *)
Theorem X16_flag_clear_between_sessions
        (c : Context) (filename : string) (keys : list Z) (g : Globals) :
  perGameSettingsChanged g = false ->
  isBreak (perGameSettings c filename keys g) = true ->
  perGameSettingsChanged (globalsOf (perGameSettings c filename keys g)) = false.
Proof. apply session_leaves_flag_clear. Qed.

Lemma X16_flag_clear_between_sessions_witness :
  perGameSettingsChanged
    (globalsOf (perGameSettings (dsiSdContext 0) "game.nds" [KEY_A; KEY_DOWN; KEY_A; KEY_B]
                  staleGlobals)) = false.
Proof.
  apply X16_flag_clear_between_sessions; reflexivity.
Defined.

Lemma iteration_storage (c : Context) (filename : string) (pressed : Z) (g : Globals) :
  match iteration c filename pressed g with
  | Continue g' => storage g' = storage g
  | Break g' =>
      storage g' = storage g
      \/ exists g1, storage g1 = storage g
                    /\ storage g' = storage (savePerGameSettings c filename g1)
  end.
Proof.
  assert (Hm : storage (moveCursor c pressed g) = storage g)
    by apply (moveCursor_settings c filename).
  assert (Hh : forall g0, storage (homebrewActivate g0) = storage g0).
  { intros g0. unfold homebrewActivate.
    repeat match goal with |- context [if ?b then _ else _] => destruct b end; reflexivity. }
  assert (Hr : forall g0, storage (retailActivate g0) = storage g0).
  { intros g0. unfold retailActivate.
    repeat match goal with |- context [if ?b then _ else _] => destruct b end; reflexivity. }
  assert (He : forall g0, storage g0 = storage g ->
                          storage (exitEditor c filename g0) = storage g
                          \/ exists g1, storage g1 = storage g
                                        /\ storage (exitEditor c filename g0)
                                           = storage (savePerGameSettings c filename g1)).
  { intros g0 H0. unfold exitEditor. destruct (perGameSettingsChanged g0); [right | now left].
    exists g0. now split. }
  unfold iteration. destruct (armOf c filename).
  - destruct (held pressed KEY_A), (held pressed KEY_B);
      rewrite ?Hh, ?Hm; try reflexivity; apply He; now rewrite ?Hh, ?Hm.
  - destruct (held pressed KEY_A || held pressed KEY_B); [left |]; reflexivity.
  - destruct (held pressed KEY_A), (held pressed KEY_B);
      rewrite ?Hr, ?Hm; try reflexivity; apply He; now rewrite ?Hr, ?Hm.
Qed.

(** X17: while the loop goes on nothing is written; a session writes the
    storage at most once, when it is left, and then it is one
    [savePerGameSettings] of this title on top of the storage it started
    with. *)
Theorem X17_storage_written_once_on_exit
        (c : Context) (filename : string) (keys : list Z) (g : Globals) :
  let o := loop c filename keys g in
  (isBreak o = false -> storage (globalsOf o) = storage g)
  /\ (storage (globalsOf o) = storage g
      \/ exists g1, storage g1 = storage g
                    /\ storage (globalsOf o) = storage (savePerGameSettings c filename g1)).
Proof.
  cbv zeta. revert g; induction keys as [|pressed keys IH]; intros g.
  - cbn. split; [reflexivity | now left].
  - cbn [loop]. pose proof (iteration_storage c filename pressed g) as Hi.
    destruct (iteration c filename pressed g) as [g'|g'].
    + destruct (IH g') as [H1 H2]. rewrite Hi in H1, H2. split; [exact H1 |].
      destruct H2 as [H2 | (g1 & E1 & E2)]; [now left | right].
      exists g1. split; [congruence | exact E2].
    + cbn [isBreak globalsOf]. split; [discriminate | exact Hi].
Qed.

Lemma X17_storage_written_once_on_exit_witness :
  let keys := [KEY_A; KEY_DOWN; KEY_A; KEY_UP] in
  storage (globalsOf (loop (dsiSdContext 0) "game.nds" keys staleGlobals)) = noFiles
  /\ length (Ini.journal
               (storage (globalsOf (loop (dsiSdContext 0) "game.nds"
                                      (keys ++ [KEY_B; KEY_A; KEY_B]) staleGlobals))))
     = 1%nat.
Proof.
  intros keys.
  destruct (X17_storage_written_once_on_exit (dsiSdContext 0) "game.nds" keys staleGlobals)
    as [H _].
  split; [apply H; reflexivity | reflexivity].
Defined.



(** ** The header of the box *)

(** X19: the SDK line reads "SDK ver: ?" exactly for the versions up to
    0x1000000, from 0x6000000 on, and for the exact multiples of 0x1000000
    in between, which the strict comparisons of lines 222-231 all miss. *)
Theorem X19_sdk_text_unknown_iff (SDKVersion : Z) :
  sdkNumberText SDKVersion = "SDK ver: ?"
  <-> (SDKVersion <= 0x1000000 \/ 0x6000000 <= SDKVersion
       \/ SDKVersion mod 0x1000000 = 0).
Proof.
  unfold sdkNumberText.
  repeat match goal with
         | |- context [?a >? ?b] => destruct (Z.gtb_spec a b)
         | |- context [?a <? ?b] => destruct (Z.ltb_spec a b)
         end; cbn [andb];
    (split; [intros Htext; try discriminate Htext | intros Hcase; try reflexivity; exfalso]);
    Z.to_euclidean_division_equations; lia.
Qed.

Lemma X19_sdk_text_unknown_iff_witness :
  sdkNumberText 0x5000000 = "SDK ver: ?" /\ sdkNumberText 0x5000001 <> "SDK ver: ?".
Proof.
  split.
  - apply (proj2 (X19_sdk_text_unknown_iff 0x5000000)). right; right. reflexivity.
  - intros H. apply (proj1 (X19_sdk_text_unknown_iff 0x5000001)) in H.
    vm_compute in H. destruct H as [H | [H | H]]; [now apply H | now apply H | discriminate H].
Defined.

Lemma afterLastDot_without_dot (s : string) :
  ~ In "."%char (list_ascii_of_string s) -> afterLastDot s = None.
Proof.
  induction s as [|ch s IH]; [reflexivity |].
  cbn [list_ascii_of_string In afterLastDot]. intros H.
  rewrite IH by tauto.
  destruct (Ascii.eqb_spec ch "."%char) as [-> | _]; [tauto | reflexivity].
Qed.

Lemma afterLastDot_with_dot (b e : string) :
  ~ In "."%char (list_ascii_of_string e) ->
  afterLastDot (b +:+ String "."%char e) = Some e.
Proof.
  intros H. induction b as [|ch b IH].
  - rewrite append_nil. cbn [afterLastDot]. now rewrite afterLastDot_without_dot.
  - rewrite append_cons. cbn [afterLastDot]. now rewrite IH.
Qed.

(** X20: the extension is what follows the last dot; a name without any dot
    is its own extension ([find_last_of] gives [npos], and [npos + 1] is 0).
    Hence any name ending in ".launcharg" gets the information box unless
    the title is homebrew, and so does the bare name "launcharg". *)
Theorem X20_extension_after_last_dot (c : Context) (base ext name : string) :
  (~ In "."%char (list_ascii_of_string ext) -> extension (base +:+ String "."%char ext) = ext)
  /\ (~ In "."%char (list_ascii_of_string name) -> extension name = name)
  /\ (isHomebrew c <> 1 ->
      armOf c (base +:+ ".launcharg") = InfoArm /\ armOf c "launcharg" = InfoArm).
Proof.
  split; [| split].
  - intros H. unfold extension. now rewrite afterLastDot_with_dot.
  - intros H. unfold extension. now rewrite afterLastDot_without_dot.
  - intros Hhb. apply Z.eqb_neq in Hhb.
    assert (E : extension (base +:+ ".launcharg") = "launcharg").
    { unfold extension.
      rewrite (afterLastDot_with_dot base "launcharg"); [reflexivity |].
      cbn. intuition discriminate. }
    unfold armOf, isLauncharg. rewrite Hhb, E. split; reflexivity.
Qed.

Lemma X20_extension_after_last_dot_witness :
  extension "my.game.nds" = "nds" /\ extension "README" = "README"
  /\ armOf (dsiSdContext 0) "title.launcharg" = InfoArm.
Proof.
  destruct (X20_extension_after_last_dot (dsiSdContext 0) "my.game" "nds" "README")
    as (H1 & H2 & _).
  destruct (X20_extension_after_last_dot (dsiSdContext 0) "title" "" "")
    as (_ & _ & H3).
  split; [apply H1; cbn; intuition discriminate |].
  split; [apply H2; cbn; intuition discriminate |].
  apply H3. discriminate.
Defined.

(** ** The argument file *)

Section ArgFile.

Implicit Types (s t cur rest : string) (ch : ascii).

Lemma chars_append s t : list_ascii_of_string (s +:+ t) = (list_ascii_of_string s ++ list_ascii_of_string t)%list.
Proof.
  induction s as [|ch s IH]; [reflexivity |].
  rewrite append_cons. cbn [list_ascii_of_string]. now rewrite IH.
Qed.

Lemma before_chars stop s ch : In ch (list_ascii_of_string (before stop s)) -> In ch (list_ascii_of_string s) /\ ch <> stop.
Proof.
  induction s as [|ch' s IH]; cbn [before]; [intros [] |].
  destruct (Ascii.eqb_spec ch' stop) as [-> | Hne]; [intros [] |].
  cbn [list_ascii_of_string In]. intros [<- | H]; [tauto |].
  specialize (IH H). tauto.
Qed.

Lemma fgets_chars room s ch :
  (In ch (list_ascii_of_string (fst (fgets room s))) -> In ch (list_ascii_of_string s))
  /\ (In ch (list_ascii_of_string (snd (fgets room s))) -> In ch (list_ascii_of_string s)).
Proof.
  revert s; induction room as [|room IH]; intros [|ch' s]; cbn [fgets];
    try (cbn; tauto).
  destruct (Ascii.eqb ch' "010"%char).
  - cbn [fst snd list_ascii_of_string In]. tauto.
  - specialize (IH s). destruct (fgets room s) as [line left].
    cbn [fst snd list_ascii_of_string In] in *. tauto.
Qed.

Lemma eqb_empty_append cur ch : String.eqb (cur +:+ String ch "") "" = false.
Proof. destruct cur; reflexivity. Qed.

(** The tokens of [strtokFrom]: clean when the run in progress is. *)
Lemma strtokFrom_tokens (Q : ascii -> Prop) s cur :
  (forall ch, In ch (list_ascii_of_string cur) -> isSep ch = false /\ Q ch) ->
  (forall ch, In ch (list_ascii_of_string s) -> Q ch) ->
  Forall (fun t => t <> "" /\ forall ch, In ch (list_ascii_of_string t) -> isSep ch = false /\ Q ch)
         (strtokFrom cur s).
Proof.
  revert cur; induction s as [|ch s IH]; intros cur Hcur Hs; cbn [strtokFrom].
  - destruct (String.eqb_spec cur ""); constructor; auto.
  - assert (Hs' : forall ch0, In ch0 (list_ascii_of_string s) -> Q ch0)
      by (intros ch0 H0; apply Hs; cbn; tauto).
    destruct (isSep ch) eqn:Hsep.
    + assert (Hnil : forall ch0, In ch0 (list_ascii_of_string "") -> isSep ch0 = false /\ Q ch0)
        by (intros ch0 []).
      destruct (String.eqb_spec cur ""); [now apply IH |].
      constructor; [auto | now apply IH].
    + apply IH; [| exact Hs'].
      intros ch0. rewrite chars_append. rewrite in_app_iff. cbn [list_ascii_of_string In].
      intros [H0 | [<- | []]]; [now apply Hcur |].
      split; [exact Hsep | apply Hs; cbn; tauto].
Qed.

Lemma tokensOfLine_clean str :
  Forall (fun t => t <> ""
                   /\ forall ch, In ch (list_ascii_of_string t) ->
                                 isSep ch = false /\ ch <> "#"%char /\ ch <> "000"%char)
         (tokensOfLine str).
Proof.
  unfold tokensOfLine, stripComment.
  apply (strtokFrom_tokens (fun ch => ch <> "#"%char /\ ch <> "000"%char)).
  - intros ch [].
  - intros ch H. apply before_chars in H as [H H1]. apply before_chars in H as [_ H0].
    tauto.
Qed.

Lemma readArgs_clean fuel room content :
  Forall (fun t => t <> ""
                   /\ forall ch, In ch (list_ascii_of_string t) ->
                                 isSep ch = false /\ ch <> "#"%char /\ ch <> "000"%char)
         (readArgs fuel room content).
Proof.
  revert content; induction fuel as [|fuel IH]; intros content; cbn [readArgs];
    [constructor |].
  destruct content as [|ch content]; [constructor |].
  destruct (fgets room (String ch content)) as [str left].
  apply Forall_app. split; [apply tokensOfLine_clean | apply IH].
Qed.

(** Nothing but separators: no token. *)
Lemma strtokFrom_blank s :
  (forall ch, In ch (list_ascii_of_string s) -> isSep ch = true) -> strtokFrom "" s = [].
Proof.
  induction s as [|ch s IH]; intros H; cbn [strtokFrom]; [reflexivity |].
  rewrite (H ch) by (cbn; tauto). cbn. apply IH. intros ch0 H0. apply H. cbn; tauto.
Qed.

Lemma readArgs_blank fuel room content :
  (forall ch, In ch (list_ascii_of_string content) -> isSep ch = true) -> readArgs fuel room content = [].
Proof.
  revert content; induction fuel as [|fuel IH]; intros content H; cbn [readArgs];
    [reflexivity |].
  destruct content as [|ch content]; [reflexivity |].
  pose proof (fun ch0 => fgets_chars room (String ch content) ch0) as Hf.
  destruct (fgets room (String ch content)) as [str left]. cbn [fst snd] in Hf.
  rewrite IH by (intros ch0 H0; apply H; now apply (proj2 (Hf ch0))).
  rewrite app_nil_r. unfold tokensOfLine. apply strtokFrom_blank.
  intros ch0 H0. unfold stripComment in H0.
  apply before_chars in H0 as [H0 _]. apply before_chars in H0 as [H0 _].
  apply H. now apply (proj1 (Hf ch0)).
Qed.

End ArgFile.

(** X21: whatever the argument file holds and however long the line buffer,
    no argument read from it is empty or contains a separator (newline,
    carriage return, tab, space), a '#' or a NUL. *)
Theorem X21_arguments_are_clean_words (PATH_MAX : nat) (content : string) :
  Forall (fun t => t <> ""
                   /\ forall ch, In ch (list_ascii_of_string t) ->
                                 isSep ch = false /\ ch <> "#"%char /\ ch <> "000"%char)
         (argarray PATH_MAX content).
Proof. apply readArgs_clean. Qed.

Lemma X21_arguments_are_clean_words_witness :
  Forall (fun t => t <> ""
                   /\ forall ch, In ch (list_ascii_of_string t) ->
                                 isSep ch = false /\ ch <> "#"%char /\ ch <> "000"%char)
         (argarray 8 "ab cd#ef gh").
Proof. apply X21_arguments_are_clean_words. Defined.

(** X22: an argument file that is empty or holds separators only yields no
    argument at all, so [argarray.at(0)] has nothing to return. *)
Theorem X22_blank_argument_file_has_no_first_argument (PATH_MAX : nat) (content : string) :
  (forall ch, In ch (list_ascii_of_string content) -> isSep ch = true) ->
  argarray PATH_MAX content = [] /\ firstArg PATH_MAX content = None.
Proof.
  intros H. unfold firstArg, argarray. now rewrite readArgs_blank.
Qed.

Lemma X22_blank_argument_file_has_no_first_argument_witness :
  firstArg 1024 (String "010"%char (String " "%char (String "009"%char ""))) = None.
Proof.
  apply X22_blank_argument_file_has_no_first_argument.
  cbn. intros ch H.
  repeat (destruct H as [<- | H]; [reflexivity |]). contradiction.
Defined.

Section FirstWord.

Implicit Types (s t x cur rest : string) (ch : ascii).

Lemma append_assoc s t x : (s +:+ t) +:+ x = s +:+ (t +:+ x).
Proof.
  induction s as [|ch s IH]; [reflexivity |].
  rewrite !append_cons. now rewrite IH.
Qed.

Lemma append_empty_r s : s +:+ "" = s.
Proof. induction s as [|ch s IH]; [reflexivity |]. rewrite append_cons. now rewrite IH. Qed.

Lemma fgets_word room t rest :
  (forall ch, In ch (list_ascii_of_string t) -> isSep ch = false) ->
  (String.length t <= room)%nat ->
  fgets room (t +:+ rest)
  = (t +:+ fst (fgets (room - String.length t) rest),
     snd (fgets (room - String.length t) rest)).
Proof.
  revert room; induction t as [|ch t IH]; intros room Ht Hlen.
  - rewrite !append_nil. cbn [String.length]. rewrite Nat.sub_0_r.
    now destruct (fgets room rest).
  - destruct room as [|room]; [cbn in Hlen; lia |].
    rewrite !append_cons. cbn [fgets String.length Nat.sub].
    destruct (Ascii.eqb_spec ch "010"%char) as [-> | _].
    + specialize (Ht "010"%char). cbn in Ht. discriminate Ht. tauto.
    + rewrite IH; [reflexivity | | cbn in Hlen; lia].
      intros ch0 H0. apply Ht. cbn; tauto.
Qed.

Lemma before_word stop t x :
  (forall ch, In ch (list_ascii_of_string t) -> ch <> stop) ->
  before stop (t +:+ x) = t +:+ before stop x.
Proof.
  induction t as [|ch t IH]; intros Ht; [reflexivity |].
  rewrite !append_cons. cbn [before].
  destruct (Ascii.eqb_spec ch stop) as [-> | _].
  - exfalso. apply (Ht stop); cbn; tauto.
  - rewrite IH; [reflexivity |]. intros ch0 H0. apply Ht. cbn; tauto.
Qed.

Lemma strtokFrom_word cur t x :
  (forall ch, In ch (list_ascii_of_string t) -> isSep ch = false) ->
  strtokFrom cur (t +:+ x) = strtokFrom (cur +:+ t) x.
Proof.
  revert cur; induction t as [|ch t IH]; intros cur Ht.
  - now rewrite append_nil, append_empty_r.
  - rewrite append_cons. cbn [strtokFrom].
    rewrite (Ht ch) by (cbn; tauto).
    rewrite IH by (intros ch0 H0; apply Ht; cbn; tauto).
    now rewrite append_assoc.
Qed.

Lemma fgets_wordEnds room rest : wordEnds rest -> wordEnds (fst (fgets room rest)).
Proof.
  destruct room as [|room], rest as [|ch rest]; cbn [fgets fst wordEnds]; try tauto.
  intros H. destruct (Ascii.eqb ch "010"%char); [exact H |].
  destruct (fgets room rest). exact H.
Qed.

Lemma stripComment_wordEnds x :
  wordEnds x ->
  stripComment x = ""
  \/ exists ch y, stripComment x = String ch y /\ isSep ch = true.
Proof.
  destruct x as [|ch x]; [now left |]. cbn [wordEnds].
  unfold stripComment. cbn [before].
  destruct (Ascii.eqb_spec ch "000"%char) as [-> | H0]; [now left |].
  cbn [before].
  destruct (Ascii.eqb_spec ch "#"%char) as [-> | H1]; [now left |].
  intros [H | [H | H]]; [right | contradiction | contradiction].
  eexists _, _. split; [reflexivity | exact H].
Qed.

Lemma head_tokens_of_word t x :
  t <> "" ->
  x = "" \/ (exists ch y, x = String ch y /\ isSep ch = true) ->
  head (strtokFrom t x) = Some t.
Proof.
  intros Ht [-> | (ch & y & -> & Hsep)]; cbn [strtokFrom].
  - destruct (String.eqb_spec t ""); [contradiction | reflexivity].
  - rewrite Hsep. destruct (String.eqb_spec t ""); [contradiction | reflexivity].
Qed.

End FirstWord.

(** X23: when the argument file starts with a word (no separator, '#' or
    NUL in it) that fits the line buffer and is followed by nothing, a
    separator, a comment or a NUL, that word is [argarray.at(0)]. *)
Theorem X23_first_word_is_first_argument (PATH_MAX : nat) (word rest : string) :
  word <> "" ->
  (forall ch, In ch (list_ascii_of_string word) ->
              isSep ch = false /\ ch <> "#"%char /\ ch <> "000"%char) ->
  (String.length word <= PATH_MAX - 1)%nat ->
  wordEnds rest ->
  firstArg PATH_MAX (word +:+ rest) = Some word.
Proof.
  intros Hne Hclean Hlen Hrest. unfold firstArg, argarray.
  destruct word as [|ch word]; [contradiction |].
  rewrite length_append. cbn [String.length Nat.add].
  rewrite append_cons. cbn [readArgs]. rewrite <- append_cons.
  rewrite fgets_word; [| intros ch0 H0; now apply Hclean | exact Hlen].
  set (room := (PATH_MAX - 1 - String.length (String ch word))%nat).
  pose proof (fgets_wordEnds room rest Hrest) as Hline.
  destruct (fgets room rest) as [line left]. cbn [fst snd] in *.
  unfold tokensOfLine, stripComment.
  rewrite (before_word "000"%char) by (intros ch0 H0; now apply Hclean).
  rewrite (before_word "#"%char) by (intros ch0 H0; now apply Hclean).
  fold (stripComment line).
  rewrite strtokFrom_word by (intros ch0 H0; now apply Hclean).
  rewrite append_nil.
  pose proof (head_tokens_of_word (String ch word) (stripComment line) Hne
                (stripComment_wordEnds line Hline)) as Hhead.
  destruct (strtokFrom (String ch word) (stripComment line)) as [|tok toks];
    [discriminate Hhead | exact Hhead].
Qed.

Lemma X23_first_word_is_first_argument_witness :
  firstArg 1024 ("sd:/roms/game.nds" +:+ " -v # comment") = Some "sd:/roms/game.nds".
Proof.
  apply X23_first_word_is_first_argument.
  - discriminate.
  - cbn. intros ch H.
    repeat (destruct H as [<- | H]; [repeat split; discriminate |]). contradiction.
  - vm_compute. lia.
  - left. reflexivity.
Defined.

(** ** The application file of a launcharg title *)

Lemma appName_padded (appVer : Z) :
  0 <= appVer <= 255 ->
  (if appVer >? 15
   then "/content/000000" +:+ printf_x appVer +:+ ".app"
   else "/content/0000000" +:+ printf_x appVer +:+ ".app")
  = "/content/000000"
      +:+ String (hexDigit (appVer / 16)) (String (hexDigit (appVer mod 16)) "") +:+ ".app".
Proof.
  intros H.
  assert (Hall : forallb
                   (fun v =>
                      String.eqb
                        (if v >? 15
                         then "/content/000000" +:+ printf_x v +:+ ".app"
                         else "/content/0000000" +:+ printf_x v +:+ ".app")
                        ("/content/000000"
                           +:+ String (hexDigit (v / 16)) (String (hexDigit (v mod 16)) "")
                           +:+ ".app"))
                   (map Z.of_nat (seq 0 256)) = true) by (vm_compute; reflexivity).
  rewrite forallb_forall in Hall.
  apply String.eqb_eq, Hall.
  rewrite in_map_iff. exists (Z.to_nat appVer). split; [lia |].
  apply in_seq. lia.
Qed.

(** X24: the two format strings of lines 187-191 together print the version
    as eight hexadecimal digits: the candidate is the directory,
    "/content/", six zeros, the two lower-case hex digits of the version
    and ".app", cut to 255 characters. *)
Theorem X24_app_path_has_eight_hex_digits (dir : string) (appVer : Z) :
  0 <= appVer <= 255 ->
  appPathOf dir appVer
  = String.substring 0 255
      (dir +:+ "/content/000000"
           +:+ String (hexDigit (appVer / 16)) (String (hexDigit (appVer mod 16)) "")
           +:+ ".app").
Proof.
  intros H. unfold appPathOf. f_equal.
  rewrite <- (appName_padded appVer H).
  destruct (appVer >? 15); now rewrite <- ?append_assoc.
Qed.

Lemma X24_app_path_has_eight_hex_digits_witness :
  appPathOf "sd:/title/00030004/4b4e4145" 10 = "sd:/title/00030004/4b4e4145/content/0000000a.app"
  /\ appPathOf "sd:/title/00030004/4b4e4145" 171
     = "sd:/title/00030004/4b4e4145/content/000000ab.app".
Proof.
  split.
  - rewrite X24_app_path_has_eight_hex_digits by (vm_compute; split; discriminate).
    reflexivity.
  - rewrite X24_app_path_has_eight_hex_digits by (vm_compute; split; discriminate).
    reflexivity.
Defined.

Lemma appSearch_reaches (access : string -> bool) (dir : string) (v : Z) :
  v <= 255 -> access (appPathOf dir v) = true ->
  forall (n : nat) (a : Z) (fuel : nat),
    0 <= a -> a + Z.of_nat n = v ->
    (forall u, a <= u < v -> access (appPathOf dir u) = false) ->
    (n < fuel)%nat ->
    appSearch access dir fuel a = Some (appPathOf dir v).
Proof.
  intros Hv Hacc. induction n as [|n IH]; intros a fuel Ha Hsum Hbelow Hfuel;
    (destruct fuel as [|fuel]; [lia |]); cbn [appSearch].
  - replace a with v by lia. now rewrite Hacc.
  - rewrite Hbelow by lia.
    replace ((a + 1) mod 256) with (a + 1) by (symmetry; apply Z.mod_small; lia).
    apply IH; try lia. intros u Hu. apply Hbelow. lia.
Qed.

(** X25: if one of the 256 candidates exists, the search ends within 256
    turns and [filenameForInfo] becomes the candidate of the lowest version
    that exists. *)
Theorem X25_app_search_finds_lowest_version
        (access : string -> bool) (dir : string) (v : Z) (fuel : nat) :
  0 <= v <= 255 -> access (appPathOf dir v) = true ->
  (forall u, 0 <= u < v -> access (appPathOf dir u) = false) ->
  (256 <= fuel)%nat ->
  appSearch access dir fuel 0 = Some (appPathOf dir v).
Proof.
  intros Hv Hacc Hbelow Hfuel.
  apply (appSearch_reaches access dir v (proj2 Hv) Hacc (Z.to_nat v)); try lia.
  exact Hbelow.
Qed.

Lemma X25_app_search_finds_lowest_version_witness :
  let access := fun p => String.eqb p "sd:/t/content/00000002.app"
                         || String.eqb p "sd:/t/content/00000005.app" in
  appSearch access "sd:/t" 256 0 = Some "sd:/t/content/00000002.app".
Proof.
  intros access.
  etransitivity; [apply (X25_app_search_finds_lowest_version access "sd:/t" 2) | reflexivity].
  - split; discriminate.
  - reflexivity.
  - intros u Hu. assert (Hc : u = 0 \/ u = 1) by lia. now destruct Hc as [-> | ->].
  - lia.
Defined.

(** X26: if none of the 256 candidates exists the search never ends: the u8
    counter wraps from 255 to 0 and no number of turns leaves the loop. *)
Theorem X26_app_search_without_file_never_ends
        (access : string -> bool) (dir : string) (fuel : nat) (appVer : Z) :
  (forall u, 0 <= u <= 255 -> access (appPathOf dir u) = false) ->
  0 <= appVer <= 255 ->
  appSearch access dir fuel appVer = None.
Proof.
  intros Hnone. revert appVer; induction fuel as [|fuel IH]; intros appVer Hv;
    cbn [appSearch]; [reflexivity |].
  rewrite Hnone by exact Hv. apply IH.
  pose proof (Z.mod_pos_bound (appVer + 1) 256 ltac:(lia)). lia.
Qed.

Lemma X26_app_search_without_file_never_ends_witness :
  appSearch (fun _ => false) "sd:/t" 1000 0 = None.
Proof.
  apply X26_app_search_without_file_never_ends; [reflexivity | lia].
Defined.
